(** * Real-estate listing client: the property query service

    A shallow embedding of [propertiesService] (src/js/supabase-client.js)
    together with the part of the hosted backend it talks to: the tables,
    constraints and row-level policies of
    src/supabase/migrations/20251215102721_create_real_estate_schema.sql,
    and the request language of the query builder ([from], [select], [eq],
    [ilike], [gte], [lte], [or], [limit], [maybeSingle], [insert],
    [delete]).

    Layout:
    - [Text]      : case folding, [includes], the SQL LIKE / ILIKE matcher;
    - [Schema]    : rows, tables, the database, column lookup;
    - [Postgrest] : errors, filters, the [or=(...)] string, row policies,
                    execution of select / insert / delete;
    - [Client]    : the asynchronous monad of the service (environment,
                    database and console state, completions), the builder
                    and [await];
    - [propertiesService] : the eight service functions;
    - the properties of the service. *)

From Stdlib Require Import String Ascii List Bool ZArith NArith Lia Permutation.
Import ListNotations.

Local Open Scope string_scope.
Local Open Scope list_scope.

(* ====================================================================== *)
(** ** Text *)
(* ====================================================================== *)

Module Text.

(** Text is a sequence of bytes ([string] of the standard library).
    Letter case is folded on the ASCII letters, which is what the
    database does on ASCII text; on text with letters outside ASCII the
    database folds more than [lower] does, so the statements about
    matching are made for ASCII text ([ascii_text]). *)

Definition is_ascii (c : ascii) : bool := N.ltb (N_of_ascii c) 128.

(** ASCII case folding, the way ILIKE compares letters. *)
Definition is_upper (c : ascii) : bool :=
  (N.leb 65 (N_of_ascii c) && N.leb (N_of_ascii c) 90)%bool.

Definition lower_ascii (c : ascii) : ascii :=
  if is_upper c then ascii_of_N (N_of_ascii c + 32) else c.

Fixpoint lower (s : string) : string :=
  match s with
  | EmptyString => EmptyString
  | String c s' => String (lower_ascii c) (lower s')
  end.

(** [starts_with q s]: [q] is a prefix of [s]. *)
Fixpoint starts_with (q s : string) : bool :=
  match q, s with
  | EmptyString, _ => true
  | String _ _, EmptyString => false
  | String a q', String b s' => (Ascii.eqb a b && starts_with q' s')%bool
  end.

(** [includes q s]: [q] occurs in [s] as a contiguous substring. *)
Fixpoint includes (q s : string) : bool :=
  (starts_with q s
   || match s with
      | EmptyString => false
      | String _ s' => includes q s'
      end)%bool.

(** Substring test up to letter case. *)
Definition includes_ci (q s : string) : bool :=
  includes (lower q) (lower s).

(** The characters that are not taken literally inside a LIKE pattern
    sent through the REST layer: [%] and [_] are the SQL wildcards,
    [\] is the default escape character, and [*] is the REST layer's
    alias for [%]. *)
Definition is_wildcard (c : ascii) : bool :=
  (Ascii.eqb c "%" || Ascii.eqb c "_" || Ascii.eqb c "\" || Ascii.eqb c "*")%bool.

Fixpoint all_chars (p : ascii -> bool) (s : string) : bool :=
  match s with
  | EmptyString => true
  | String c s' => (p c && all_chars p s')%bool
  end.

Definition wildcard_free (s : string) : bool :=
  all_chars (fun c => negb (is_wildcard c)) s.

(** Every character of the text is an ASCII character. *)
Definition ascii_text (s : string) : bool := all_chars is_ascii s.

(** SQL [LIKE]: [%] matches any run of characters, [_] exactly one
    character, [\c] the character [c] itself.  A pattern that ends in a
    lone escape character matches nothing. *)
Fixpoint like_match (p : string) : string -> bool :=
  match p with
  | EmptyString =>
      fun s => match s with EmptyString => true | String _ _ => false end
  | String c p' =>
      if Ascii.eqb c "%" then
        fix any (s : string) : bool :=
          (like_match p' s
           || match s with
              | EmptyString => false
              | String _ s' => any s'
              end)%bool
      else if Ascii.eqb c "_" then
        fun s =>
          match s with
          | EmptyString => false
          | String _ s' => like_match p' s'
          end
      else if Ascii.eqb c "\" then
        match p' with
        | EmptyString => fun _ => false
        | String d p'' =>
            fun s =>
              match s with
              | EmptyString => false
              | String e s' => (Ascii.eqb d e && like_match p'' s')%bool
              end
        end
      else
        fun s =>
          match s with
          | EmptyString => false
          | String e s' => (Ascii.eqb c e && like_match p' s')%bool
          end
  end.

(** The REST layer rewrites [*] to [%] in the operand of [like] and
    [ilike] before the pattern reaches SQL. *)
Fixpoint star_to_percent (p : string) : string :=
  match p with
  | EmptyString => EmptyString
  | String c p' =>
      String (if Ascii.eqb c "*" then "%"%char else c) (star_to_percent p')
  end.

(** [column ILIKE pattern] as the REST layer evaluates it. *)
Definition ilike_match (p s : string) : bool :=
  like_match (lower (star_to_percent p)) (lower s).

(** [split_on c s]: the pieces of [s] between occurrences of [c]. *)
Fixpoint split_on (c : ascii) (s : string) : list string :=
  match s with
  | EmptyString => [EmptyString]
  | String d s' =>
      if Ascii.eqb d c then EmptyString :: split_on c s'
      else match split_on c s' with
           | [] => [String d EmptyString]
           | w :: ws => String d w :: ws
           end
  end.

(** [cut_at c s]: the text before the first [c] and the text after it. *)
Fixpoint cut_at (c : ascii) (s : string) : option (string * string) :=
  match s with
  | EmptyString => None
  | String d s' =>
      if Ascii.eqb d c then Some (EmptyString, s')
      else match cut_at c s' with
           | None => None
           | Some (a, b) => Some (String d a, b)
           end
  end.

End Text.

(* ====================================================================== *)
(** ** Schema: the tables of the migration *)
(* ====================================================================== *)

Module Schema.

(** Identifiers are [uuid] columns, kept as the text the client passes
    and compared as text.  That is how the database compares them when
    the text is a uuid in the form the database prints ([canonical_uuid]:
    lower-case hexadecimal digits in groups of 8-4-4-4-12); the database
    rejects text that is no uuid, so a statement that needs a request on
    an identifier to be accepted asks for that form. *)
Definition uuid := string.

Definition is_hex_digit (c : ascii) : bool :=
  let n := N_of_ascii c in
  ((N.leb 48 n && N.leb n 57) || (N.leb 97 n && N.leb n 102))%bool.

Definition is_dash_position (pos : nat) : bool :=
  (Nat.eqb pos 8 || Nat.eqb pos 13 || Nat.eqb pos 18 || Nat.eqb pos 23)%bool.

Fixpoint uuid_shape (pos : nat) (s : string) : bool :=
  match s with
  | EmptyString => Nat.eqb pos 36
  | String c s' =>
      ((if is_dash_position pos then Ascii.eqb c "-" else is_hex_digit c)
       && uuid_shape (S pos) s')%bool
  end.

Definition canonical_uuid (s : string) : bool := uuid_shape 0 s.

(** A row of [properties].  The columns no request of the service
    filters on (bathrooms, square_feet, address, state, zip_code,
    country, latitude, longitude, year_built, views_count and the two
    timestamps) travel with the row through [*] and are left out.
    Columns declared without NOT NULL are optional.  [price] is a
    [numeric] column, kept in whole units; [bedrooms] is an [integer]
    column.  The rows a select list embeds ([property_images],
    [property_features], [agents]) are not part of the row: a response
    is told by the rows of [properties] it holds. *)
Record PropertyRow := {
  id : uuid;
  title : string;
  description : string;
  property_type : string;
  listing_type : string;
  price : Z;
  bedrooms : option Z;
  city : string;
  status : option string;
  featured : option bool;
  agent_id : option uuid
}.

(** A row of [saved_properties]; UNIQUE(user_id, property_id).  Both
    columns are written by every insert of the service. *)
Record SavedRow := {
  saved_user_id : uuid;
  saved_property_id : uuid
}.

(** A row of [inquiries]. *)
Record InquiryRow := {
  inq_property_id : option uuid;
  inq_name : string;
  inq_email : string;
  inq_phone : option string;
  inq_message : string;
  inq_status : option string
}.

Record Database := {
  properties : list PropertyRow;
  saved_properties : list SavedRow;
  inquiries : list InquiryRow;
  auth_users : list uuid
}.

(** The value found in a column of a row. *)
Inductive cell :=
| CNull
| CText (s : string)
| CNum (z : Z)
| CBool (b : bool).

Definition text_cell (o : option string) : cell :=
  match o with Some s => CText s | None => CNull end.
Definition num_cell (o : option Z) : cell :=
  match o with Some z => CNum z | None => CNull end.
Definition bool_cell (o : option bool) : cell :=
  match o with Some b => CBool b | None => CNull end.

(** Column lookup by name; [None] for a name the table does not have. *)
Definition property_column (r : PropertyRow) (c : string) : option cell :=
  if c =? "id" then Some (CText (id r))
  else if c =? "title" then Some (CText (title r))
  else if c =? "description" then Some (CText (description r))
  else if c =? "property_type" then Some (CText (property_type r))
  else if c =? "listing_type" then Some (CText (listing_type r))
  else if c =? "price" then Some (CNum (price r))
  else if c =? "bedrooms" then Some (num_cell (bedrooms r))
  else if c =? "city" then Some (CText (city r))
  else if c =? "status" then Some (text_cell (status r))
  else if c =? "featured" then Some (bool_cell (featured r))
  else if c =? "agent_id" then Some (text_cell (agent_id r))
  else None.

Definition saved_column (r : SavedRow) (c : string) : option cell :=
  if c =? "user_id" then Some (CText (saved_user_id r))
  else if c =? "property_id" then Some (CText (saved_property_id r))
  else None.

End Schema.

(* ====================================================================== *)
(** ** Postgrest: the request language and its evaluation *)
(* ====================================================================== *)

Module Postgrest.
Import Schema.

(** The error object of a response: [code] and [message]. *)
Record PostgrestError := {
  code : string;
  message : string
}.

(** SQLSTATE codes of the database, and the REST layer's own codes. *)
Definition unique_violation : PostgrestError :=
  {| code := "23505";
     message := "duplicate key value violates unique constraint" |}.
Definition not_null_violation : PostgrestError :=
  {| code := "23502";
     message := "null value in column violates not-null constraint" |}.
Definition foreign_key_violation : PostgrestError :=
  {| code := "23503";
     message := "insert or update on table violates foreign key constraint" |}.
Definition rls_violation : PostgrestError :=
  {| code := "42501";
     message := "new row violates row-level security policy" |}.
Definition undefined_column : PostgrestError :=
  {| code := "42703"; message := "column does not exist" |}.
Definition invalid_input : PostgrestError :=
  {| code := "22P02"; message := "invalid input syntax for type" |}.
Definition out_of_range : PostgrestError :=
  {| code := "22003"; message := "value out of range for type integer" |}.
Definition no_relationship : PostgrestError :=
  {| code := "PGRST200";
     message := "could not find a relationship in the schema cache" |}.
Definition undefined_table : PostgrestError :=
  {| code := "PGRST205"; message := "could not find the table" |}.
Definition parse_error : PostgrestError :=
  {| code := "PGRST100"; message := "failed to parse logic tree" |}.
Definition not_single : PostgrestError :=
  {| code := "PGRST116";
     message := "JSON object requested, multiple (or no) rows returned" |}.

(** Operands keep the type they have in the calling code. *)
Inductive value :=
| VText (s : string)
| VNum (z : Z)
| VBool (b : bool).

(** One filter of a request.  [Or] carries the text handed to [.or(...)]
    as it is; the REST layer parses it. *)
Inductive Filter :=
| Eq (column : string) (v : value)
| Gte (column : string) (v : value)
| Lte (column : string) (v : value)
| Ilike (column : string) (pattern : string)
| Or (conditions : string).

(** One condition of an [or=(...)] string: [column.operator.value].
    The fragment read here has the operators [eq] and [ilike] on text
    operands, which is all the service writes into such a string; a
    condition of any other shape (among them nested [and(...)],
    [or(...)] and [not.] forms) is answered as the parse error. *)
Definition parse_condition (piece : string) : option Filter :=
  match Text.cut_at "." piece with
  | None => None
  | Some (col, rest) =>
      match Text.cut_at "." rest with
      | None => None
      | Some (op, val) =>
          if (col =? "")%string then None
          else if negb (Text.all_chars
                          (fun c => negb (Ascii.eqb c "(" || Ascii.eqb c ")"))
                          piece) then None
          else if op =? "ilike" then Some (Ilike col val)
          else if op =? "eq" then Some (Eq col (VText val))
          else None
      end
  end.

Fixpoint parse_conditions (pieces : list string) : option (list Filter) :=
  match pieces with
  | [] => Some []
  | p :: ps =>
      match parse_condition p, parse_conditions ps with
      | Some f, Some fs => Some (f :: fs)
      | _, _ => None
      end
  end.

(** The conditions of an [or] string are separated by commas. *)
Definition parse_or (conditions : string) : option (list Filter) :=
  parse_conditions (Text.split_on "," conditions).

(** Comparison of a cell with an operand.  NULL compares as unknown,
    which a WHERE clause treats as false. *)
Definition cell_eq (c : cell) (v : value) : bool :=
  match c, v with
  | CText s, VText t => (s =? t)%string
  | CNum a, VNum b => Z.eqb a b
  | CBool a, VBool b => Bool.eqb a b
  | _, _ => false
  end.

Definition cell_gte (c : cell) (v : value) : bool :=
  match c, v with
  | CNum a, VNum b => Z.leb b a
  | _, _ => false
  end.

Definition cell_lte (c : cell) (v : value) : bool :=
  match c, v with
  | CNum a, VNum b => Z.leb a b
  | _, _ => false
  end.

Definition cell_ilike (c : cell) (pattern : string) : bool :=
  match c with
  | CText s => Text.ilike_match pattern s
  | _ => false
  end.

Section Rows.
(** A table seen through its column lookup. *)
Context {Row : Type}.
Variable column_of : Row -> string -> option cell.

Definition on_column (r : Row) (c : string) (test : cell -> bool) : bool :=
  match column_of r c with
  | Some x => test x
  | None => false
  end.

(** A filter without [Or] inside. *)
Definition simple_holds (f : Filter) (r : Row) : bool :=
  match f with
  | Eq c v => on_column r c (fun x => cell_eq x v)
  | Gte c v => on_column r c (fun x => cell_gte x v)
  | Lte c v => on_column r c (fun x => cell_lte x v)
  | Ilike c p => on_column r c (fun x => cell_ilike x p)
  | Or _ => false
  end.

Definition filter_holds (f : Filter) (r : Row) : bool :=
  match f with
  | Or conditions =>
      match parse_or conditions with
      | Some fs => existsb (fun g => simple_holds g r) fs
      | None => false
      end
  | _ => simple_holds f r
  end.

(** All filters of a request are AND-combined. *)
Definition filters_hold (fs : list Filter) (r : Row) : bool :=
  forallb (fun f => filter_holds f r) fs.
End Rows.

(** Validation of a request against the columns of its table, done
    before any row is read.  A filter is accepted when its column exists
    and its operand has the type of the column: equality on any column,
    order on [numeric] and [integer] columns, ILIKE on text columns.  A
    name the table does not have is the undefined-column error; a number
    outside the 32-bit range on an [integer] column is the out-of-range
    error; an operand of another type is answered as the invalid-input
    error. *)
Inductive kind := KText | KNum | KInt | KBool.

Definition in_int4 (z : Z) : bool :=
  (Z.leb (-2147483648) z && Z.leb z 2147483647)%bool.

(** Whether a column of a kind can be compared for equality with an
    operand. *)
Definition operand_check (k : kind) (v : value) : option PostgrestError :=
  match k, v with
  | KText, VText _ => None
  | KNum, VNum _ => None
  | KInt, VNum z => if in_int4 z then None else Some out_of_range
  | KBool, VBool _ => None
  | _, _ => Some invalid_input
  end.

(** Whether it can be compared for order. *)
Definition order_check (k : kind) (v : value) : option PostgrestError :=
  match k with
  | KNum | KInt => operand_check k v
  | _ => Some invalid_input
  end.

Fixpoint kind_of (columns : list (string * kind)) (c : string) : option kind :=
  match columns with
  | [] => None
  | (k, t) :: columns' => if (k =? c)%string then Some t else kind_of columns' c
  end.

Definition operand_error (columns : list (string * kind)) (c : string)
    (check : kind -> option PostgrestError) : option PostgrestError :=
  match kind_of columns c with
  | None => Some undefined_column
  | Some k => check k
  end.

Definition simple_error (columns : list (string * kind)) (f : Filter)
  : option PostgrestError :=
  match f with
  | Eq c v => operand_error columns c (fun k => operand_check k v)
  | Gte c v | Lte c v => operand_error columns c (fun k => order_check k v)
  | Ilike c _ =>
      operand_error columns c
        (fun k => match k with KText => None | _ => Some invalid_input end)
  | Or _ => Some parse_error
  end.

Fixpoint first_error (columns : list (string * kind)) (fs : list Filter)
  : option PostgrestError :=
  match fs with
  | [] => None
  | f :: fs' =>
      match simple_error columns f with
      | Some e => Some e
      | None => first_error columns fs'
      end
  end.

Definition filter_error (columns : list (string * kind)) (f : Filter)
  : option PostgrestError :=
  match f with
  | Or conditions =>
      match parse_or conditions with
      | None => Some parse_error
      | Some fs => first_error columns fs
      end
  | _ => simple_error columns f
  end.

Fixpoint filters_error (columns : list (string * kind)) (fs : list Filter)
  : option PostgrestError :=
  match fs with
  | [] => None
  | f :: fs' =>
      match filter_error columns f with
      | Some e => Some e
      | None => filters_error columns fs'
      end
  end.

Definition property_columns : list (string * kind) :=
  [("id", KText); ("title", KText); ("description", KText);
   ("property_type", KText); ("listing_type", KText); ("price", KNum);
   ("bedrooms", KInt); ("city", KText); ("status", KText);
   ("featured", KBool); ("agent_id", KText)].

Definition saved_columns : list (string * kind) :=
  [("user_id", KText); ("property_id", KText)].

(** *** Requests *)

Inductive Method := GET | POST | DELETE.

(** The object handed to [createInquiry]: a key that is left out of the
    object is [None]. *)
Module Inquiry.
Record t := {
  property_id : option uuid;
  name : option string;
  email : option string;
  phone : option string;
  message : option string
}.
End Inquiry.

(** The rows of an insert, by target table. *)
Inductive Body :=
| NoBody
| SavedBody (rows : list SavedRow)
| InquiryBody (rows : list Inquiry.t).

Record Request := {
  table : string;
  method : Method;
  columns : string;
  filters : list Filter;
  limit_rows : option nat;
  body : Body
}.

(** The [{ data, error }] pair of a response. *)
Record Response (A : Type) := {
  data : option A;
  error : option PostgrestError
}.
Arguments data {A} _.
Arguments error {A} _.

Definition ok {A : Type} (a : A) : Response A :=
  {| data := Some a; error := None |}.
Definition no_content {A : Type} : Response A :=
  {| data := None; error := None |}.
Definition failed {A : Type} (e : PostgrestError) : Response A :=
  {| data := None; error := Some e |}.

(** *** Row-level policies of the migration *)

(** "Anyone can view active properties":
    [ON properties FOR SELECT USING (status = 'active')]; it is the only
    SELECT policy of the table. *)
Definition properties_select_policy (r : PropertyRow) : bool :=
  match status r with
  | Some s => (s =? "active")%string
  | None => false
  end.

(** [TO authenticated ... (auth.uid() = user_id)], shared by the SELECT,
    INSERT and DELETE policies of [saved_properties].  [uid] is the
    identity of the session, [None] for an anonymous one. *)
Definition own_saved_row (uid : option uuid) (r : SavedRow) : bool :=
  match uid with
  | Some u => (u =? saved_user_id r)%string
  | None => false
  end.

(** "Anyone can create inquiries": [WITH CHECK (true)]. *)
Definition inquiries_insert_check (i : Inquiry.t) : bool := true.

(** *** Reads *)

Definition take (limit : option nat) {A : Type} (rows : list A) : list A :=
  match limit with
  | Some n => firstn n rows
  | None => rows
  end.

(** The rows of [properties] a request selects: visible under the
    policy, passing every filter, in table order, cut at the limit. *)
Definition selected_properties (db : Database) (q : Request)
  : list PropertyRow :=
  take (limit_rows q)
    (filter (fun r => properties_select_policy r
                      && filters_hold property_column (filters q) r)%bool
       (properties db)).

(** The foreign keys of the migration between the tables the API
    exposes, as (referencing table, referenced table).  [properties]
    has an [agent_id] column, declared [agent_id uuid] without
    REFERENCES: there is no foreign key between [properties] and
    [agents]. *)
Definition foreign_keys : list (string * string) :=
  [("property_images", "properties");
   ("property_features", "properties");
   ("saved_properties", "properties");
   ("inquiries", "properties")].

(** Two tables are related when a foreign key joins them, in either
    direction. *)
Definition related (a b : string) : bool :=
  existsb (fun fk => ((fst fk =? a) && (snd fk =? b)
                      || (fst fk =? b) && (snd fk =? a))%string%bool)
    foreign_keys.

(** The resources a select list embeds, each with the table it is
    embedded in: [name(...)] embeds [name] in the table of the enclosing
    parentheses, or in the table of the request.  [parents] is the stack
    of enclosing tables, [token] the name read so far.  The select lists
    of the service use no alias, hint or spread. *)
Fixpoint embeddings (parents : list string) (token : string) (s : string)
  : list (string * string) :=
  match s with
  | EmptyString => []
  | String c s' =>
      if Ascii.eqb c "(" then
        (hd EmptyString parents, token) :: embeddings (token :: parents) EmptyString s'
      else if Ascii.eqb c ")" then embeddings (tl parents) EmptyString s'
      else if Ascii.eqb c "," then embeddings parents EmptyString s'
      else embeddings parents (token ++ String c EmptyString) s'
  end.

(** A request that embeds a resource unrelated to its parent is rejected
    before any row is read. *)
Definition embed_error (q : Request) : option PostgrestError :=
  if forallb (fun pc => related (fst pc) (snd pc))
       (embeddings [table q] EmptyString (columns q))
  then None
  else Some no_relationship.

Definition select_properties (db : Database) (q : Request)
  : Response (list PropertyRow) :=
  if negb (table q =? "properties")%string then failed undefined_table
  else match embed_error q with
       | Some e => failed e
       | None =>
           match filters_error property_columns (filters q) with
           | Some e => failed e
           | None => ok (selected_properties db q)
           end
       end.

(** An item of [saved_properties] read with its property embedded:
    [property_id, properties(...)].  The embedded row is subject to the
    policy of its own table and is null when that row is hidden.  The
    request carries no [order()]: the items come in the order the backend
    reads the table, which is the order of the list at that moment. *)
Record SavedItem := {
  item_property_id : uuid;
  item_properties : option PropertyRow
}.

Definition embed_property (db : Database) (r : SavedRow) : SavedItem :=
  {| item_property_id := saved_property_id r;
     item_properties :=
       find (fun p => (id p =? saved_property_id r)%string
                      && properties_select_policy p)%bool
         (properties db) |}.

Definition select_saved (uid : option uuid) (db : Database) (q : Request)
  : Response (list SavedItem) :=
  if negb (table q =? "saved_properties")%string then failed undefined_table
  else match embed_error q with
       | Some e => failed e
       | None =>
           match filters_error saved_columns (filters q) with
           | Some e => failed e
           | None =>
               ok (map (embed_property db)
                     (take (limit_rows q)
                        (filter (fun r => own_saved_row uid r
                                          && filters_hold saved_column (filters q) r)%bool
                           (saved_properties db))))
           end
       end.

(** *** Writes *)

Definition same_saved (a b : SavedRow) : bool :=
  ((saved_user_id a =? saved_user_id b)
   && (saved_property_id a =? saved_property_id b))%string%bool.

Definition property_exists (db : Database) (p : uuid) : bool :=
  existsb (fun r => (id r =? p)%string) (properties db).

Definition user_exists (db : Database) (u : uuid) : bool :=
  existsb (fun k => (k =? u)%string) (auth_users db).

(** Insert of one row into [saved_properties]: the policy's WITH CHECK,
    then UNIQUE(user_id, property_id), then the two foreign keys. *)
Definition insert_saved_row (uid : option uuid) (db : Database) (r : SavedRow)
  : PostgrestError + Database :=
  if negb (own_saved_row uid r) then inl rls_violation
  else if existsb (same_saved r) (saved_properties db) then inl unique_violation
  else if negb (user_exists db (saved_user_id r)) then inl foreign_key_violation
  else if negb (property_exists db (saved_property_id r))
       then inl foreign_key_violation
  else inr {| properties := properties db;
              saved_properties := saved_properties db ++ [r];
              inquiries := inquiries db;
              auth_users := auth_users db |}.

(** Insert of one row into [inquiries]: [name], [email] and [message]
    are NOT NULL; [property_id] is a nullable foreign key; [phone] is
    nullable; [status] defaults to ['new']. *)
Definition insert_inquiry_row (db : Database) (i : Inquiry.t)
  : PostgrestError + Database :=
  if negb (inquiries_insert_check i) then inl rls_violation
  else
    match Inquiry.name i, Inquiry.email i, Inquiry.message i with
    | Some n, Some e, Some m =>
        if match Inquiry.property_id i with
           | Some p => property_exists db p
           | None => true
           end
        then inr {| properties := properties db;
                    saved_properties := saved_properties db;
                    inquiries :=
                      inquiries db ++
                        [{| inq_property_id := Inquiry.property_id i;
                            inq_name := n;
                            inq_email := e;
                            inq_phone := Inquiry.phone i;
                            inq_message := m;
                            inq_status := Some "new" |}];
                    auth_users := auth_users db |}
        else inl foreign_key_violation
    | _, _, _ => inl not_null_violation
    end.

(** An insert is one statement: the first failing row aborts it and
    nothing is written. *)
Fixpoint insert_all {R : Type} (step : Database -> R -> PostgrestError + Database)
    (db : Database) (rows : list R) : PostgrestError + Database :=
  match rows with
  | [] => inr db
  | r :: rows' =>
      match step db r with
      | inl e => inl e
      | inr db' => insert_all step db' rows'
      end
  end.

Definition insert (uid : option uuid) (db : Database) (q : Request)
  : Response unit * Database :=
  match body q with
  | SavedBody rows =>
      if negb (table q =? "saved_properties")%string
      then (failed undefined_table, db)
      else match insert_all (insert_saved_row uid) db rows with
           | inl e => (failed e, db)
           | inr db' => (no_content, db')
           end
  | InquiryBody rows =>
      if negb (table q =? "inquiries")%string
      then (failed undefined_table, db)
      else match insert_all insert_inquiry_row db rows with
           | inl e => (failed e, db)
           | inr db' => (no_content, db')
           end
  | NoBody => (failed parse_error, db)
  end.

(** Delete by filter on [saved_properties]: the rows the session may
    delete and that pass the filters go; matching no row is not an
    error. *)
Definition delete_saved (uid : option uuid) (db : Database) (q : Request)
  : Response unit * Database :=
  if negb (table q =? "saved_properties")%string
  then (failed undefined_table, db)
  else match filters_error saved_columns (filters q) with
       | Some e => (failed e, db)
       | None =>
           (no_content,
            {| properties := properties db;
               saved_properties :=
                 filter (fun r => negb (own_saved_row uid r
                                        && filters_hold saved_column (filters q) r))
                   (saved_properties db);
               inquiries := inquiries db;
               auth_users := auth_users db |})
       end.

End Postgrest.

(* ====================================================================== *)
(** ** Client: the builder and the asynchronous monad *)
(* ====================================================================== *)

Module Client.
Import Schema Postgrest.

(** What happens to a request on its way: it reaches the backend, which
    evaluates it ([Online]); the fetch itself fails ([FetchFails]); or
    the platform answers it with an error without evaluating it
    ([Refused]: outage, timeout, rejected key). *)
Inductive Transport :=
| Online
| FetchFails (name reason : string)
| Refused (e : PostgrestError).

Record Env := {
  session : option uuid;
  transport : Transport
}.

(** The state a call can change: the database behind the backend, and
    the diagnostic channel [console.error] writes to. *)
Record State := {
  db : Database;
  console : list (string * PostgrestError)
}.

(** How an [async] function ends: with a value, or by throwing. *)
Inductive completion (A : Type) :=
| Normal (a : A)
| Throw (reason : string).
Arguments Normal {A} _.
Arguments Throw {A} _.

Definition Async (A : Type) := Env -> State -> completion A * State.

Definition ret {A : Type} (a : A) : Async A :=
  fun _ st => (Normal a, st).

Definition bind {A B : Type} (m : Async A) (k : A -> Async B) : Async B :=
  fun env st =>
    match m env st with
    | (Normal a, st') => k a env st'
    | (Throw r, st') => (Throw r, st')
    end.

Definition console_error (label : string) (e : PostgrestError) : Async unit :=
  fun _ st =>
    (Normal tt, {| db := db st; console := console st ++ [(label, e)] |}).

(** The query builder: the request under construction and the two modes
    of the builder.  [shouldThrowOnError] is off unless [throwOnError()]
    is called on the chain. *)
Record Builder := {
  request : Request;
  isMaybeSingle : bool;
  shouldThrowOnError : bool
}.

Definition with_request (f : Request -> Request) (b : Builder) : Builder :=
  {| request := f (request b);
     isMaybeSingle := isMaybeSingle b;
     shouldThrowOnError := shouldThrowOnError b |}.

Definition add_filter (f : Filter) : Builder -> Builder :=
  with_request (fun q =>
    {| table := table q; method := method q; columns := columns q;
       filters := filters q ++ [f]; limit_rows := limit_rows q;
       body := body q |}).

Definition from (t : string) : Builder :=
  {| request := {| table := t; method := GET; columns := "*";
                   filters := []; limit_rows := None; body := NoBody |};
     isMaybeSingle := false;
     shouldThrowOnError := false |}.

Definition select (cols : string) : Builder -> Builder :=
  with_request (fun q =>
    {| table := table q; method := GET; columns := cols;
       filters := filters q; limit_rows := limit_rows q; body := body q |}).

Definition insert (rows : Body) : Builder -> Builder :=
  with_request (fun q =>
    {| table := table q; method := POST; columns := columns q;
       filters := filters q; limit_rows := limit_rows q; body := rows |}).

Definition delete : Builder -> Builder :=
  with_request (fun q =>
    {| table := table q; method := DELETE; columns := columns q;
       filters := filters q; limit_rows := limit_rows q; body := body q |}).

Definition eq (c : string) (v : value) := add_filter (Eq c v).
Definition gte (c : string) (v : value) := add_filter (Gte c v).
Definition lte (c : string) (v : value) := add_filter (Lte c v).
Definition ilike (c : string) (p : string) := add_filter (Ilike c p).
Definition or (conditions : string) := add_filter (Or conditions).

Definition limit (n : nat) : Builder -> Builder :=
  with_request (fun q =>
    {| table := table q; method := method q; columns := columns q;
       filters := filters q; limit_rows := Some n; body := body q |}).

Definition maybeSingle (b : Builder) : Builder :=
  {| request := request b;
     isMaybeSingle := true;
     shouldThrowOnError := shouldThrowOnError b |}.

(** Method chaining: [b |> f] is [b.f]; [x <- m ;; k] awaits [m]. *)
Notation "b |> f" := (f b) (at level 45, left associativity, only parsing).
Notation "x <- m ;; k" := (bind m (fun x => k))
  (at level 61, m at next level, right associativity).
Notation "m ;; k" := (bind m (fun _ => k))
  (at level 61, right associativity).

(** The builder settles its promise with the response; it rejects only
    in [shouldThrowOnError] mode. *)
Definition settle {A : Type} (b : Builder) (r : Response A)
  : completion (Response A) :=
  match error r with
  | Some e => if shouldThrowOnError b then Throw (message e) else Normal r
  | None => Normal r
  end.

(** A failed fetch becomes an error object of the response. *)
Definition fetch_error (name reason : string) : PostgrestError :=
  {| code := ""; message := name ++ ": " ++ reason |}.

Definition exchange {A : Type} (b : Builder)
    (run : option uuid -> Database -> Response A * Database)
  : Async (Response A) :=
  fun env st =>
    match transport env with
    | FetchFails n m => (settle b (failed (fetch_error n m)), st)
    | Refused e => (settle b (failed e), st)
    | Online =>
        let (r, db') := run (session env) (db st) in
        (settle b r, {| db := db'; console := console st |})
    end.

(** [maybeSingle] on a read: no row is null data, one row is that row,
    several rows are the error PGRST116. *)
Definition single_of {A : Type} (r : Response (list A)) : Response A :=
  match error r, data r with
  | Some e, _ => failed e
  | None, Some [x] => ok x
  | None, Some (_ :: _ :: _) => failed not_single
  | None, _ => no_content
  end.

(** [await] on a read of [properties]. *)
Definition await_properties (b : Builder)
  : Async (Response (list PropertyRow)) :=
  exchange b (fun _ d => (select_properties d (request b), d)).

(** [await] on a read of [properties] whose chain ends in
    [maybeSingle()]. *)
Definition await_property (b : Builder) : Async (Response PropertyRow) :=
  exchange b (fun _ d => (single_of (select_properties d (request b)), d)).

(** [await] on a read of [saved_properties]. *)
Definition await_saved (b : Builder) : Async (Response (list SavedItem)) :=
  exchange b (fun uid d => (select_saved uid d (request b), d)).

(** [await] on an insert or a delete (no [select()] on the chain: the
    response carries no rows). *)
Definition await_write (b : Builder) : Async (Response unit) :=
  exchange b (fun uid d =>
    match method (request b) with
    | POST => Postgrest.insert uid d (request b)
    | DELETE => delete_saved uid d (request b)
    | GET => (failed parse_error, d)
    end).

(** Running a call from a database with an empty console. *)
Definition run {A : Type} (m : Async A) (env : Env) (d : Database)
  : completion A * State :=
  m env {| db := d; console := [] |}.

Definition result {A : Type} (m : Async A) (env : Env) (d : Database)
  : completion A :=
  fst (run m env d).

Definition db_after {A : Type} (m : Async A) (env : Env) (d : Database)
  : Database :=
  db (snd (run m env d)).

(** The error of the response an awaited request settles with, if it
    has one. *)
Definition awaited_error {A : Type} (m : Async (Response A))
    (env : Env) (d : Database) : option PostgrestError :=
  match result m env d with
  | Normal r => error r
  | Throw _ => None
  end.

End Client.

(** JavaScript truthiness of the values a filter field can hold. *)
Module Js.

Class Truthy (A : Type) := truthy : A -> bool.

#[export] Instance truthy_string : Truthy string :=
  fun s => negb (s =? "")%string.
#[export] Instance truthy_number : Truthy Z :=
  fun z => negb (Z.eqb z 0).
#[export] Instance truthy_boolean : Truthy bool :=
  fun b => b.

End Js.

(* ====================================================================== *)
(** ** propertiesService *)
(* ====================================================================== *)

Module Filters.
(** The filter object of [getProperties]; a field that is left out is
    [None].  Text fields hold strings, price and bedroom fields whole
    numbers, [featured] a boolean. *)
Record t := {
  city : option string;
  propertyType : option string;
  minPrice : option Z;
  maxPrice : option Z;
  bedrooms : option Z;
  listingType : option string;
  featured : option bool
}.

(** [{}], the default argument. *)
Definition empty : t :=
  {| city := None; propertyType := None; minPrice := None;
     maxPrice := None; bedrooms := None; listingType := None;
     featured := None |}.
End Filters.

Module propertiesService.
Import Schema Postgrest Client Js.

(** [if (field) { query = step(field, query) }] *)
Definition when_truthy {A : Type} `{Truthy A} (field : option A)
    (step : A -> Builder -> Builder) (query : Builder) : Builder :=
  match field with
  | Some a => if truthy a then step a query else query
  | None => query
  end.

(** The request [getProperties] builds, up to and including
    [.limit(20)]. *)
Definition getProperties_query (filters : Filters.t) : Builder :=
  let query :=
    from "properties"
    |> select "*,property_images(id,image_url,is_primary),property_features(feature_name,feature_value),agents(full_name,rating,total_sales)"
    |> eq "status" (VText "active") in
  let query :=
    when_truthy (Filters.city filters)
      (fun c => ilike "city" ("%" ++ c ++ "%")) query in
  let query :=
    when_truthy (Filters.propertyType filters)
      (fun t => eq "property_type" (VText t)) query in
  let query :=
    when_truthy (Filters.minPrice filters)
      (fun p => gte "price" (VNum p)) query in
  let query :=
    when_truthy (Filters.maxPrice filters)
      (fun p => lte "price" (VNum p)) query in
  let query :=
    when_truthy (Filters.bedrooms filters)
      (fun n => gte "bedrooms" (VNum n)) query in
  let query :=
    when_truthy (Filters.listingType filters)
      (fun t => eq "listing_type" (VText t)) query in
  let query :=
    when_truthy (Filters.featured filters)
      (fun _ => eq "featured" (VBool true)) query in
  query |> limit 20.

Definition getProperties (filters : Filters.t) : Async (list PropertyRow) :=
  resp <- await_properties (getProperties_query filters) ;;
  match error resp with
  | Some e =>
      console_error "Error fetching properties:" e ;;
      ret []
  | None =>
      ret (match data resp with Some rows => rows | None => [] end)
  end.

Definition getPropertyById_query (id : uuid) : Builder :=
  from "properties"
  |> select "*,property_images(id,image_url,is_primary,display_order),property_features(feature_name,feature_value),agents(full_name,email,phone,bio,avatar_url,rating,total_sales)"
  |> eq "id" (VText id)
  |> maybeSingle.

(** [None] is JavaScript's [null]. *)
Definition getPropertyById (id : uuid) : Async (option PropertyRow) :=
  resp <- await_property (getPropertyById_query id) ;;
  match error resp with
  | Some e =>
      console_error "Error fetching property:" e ;;
      ret None
  | None => ret (data resp)
  end.

Definition getFeaturedProperties_query : Builder :=
  from "properties"
  |> select "*,property_images(image_url,is_primary),agents(full_name,rating)"
  |> eq "status" (VText "active")
  |> eq "featured" (VBool true)
  |> limit 6.

Definition getFeaturedProperties : Async (list PropertyRow) :=
  resp <- await_properties getFeaturedProperties_query ;;
  match error resp with
  | Some e =>
      console_error "Error fetching featured properties:" e ;;
      ret []
  | None =>
      ret (match data resp with Some rows => rows | None => [] end)
  end.

(** The text handed to [.or(...)]: the query is spliced into it three
    times, as it is. *)
Definition search_conditions (query : string) : string :=
  "title.ilike.%" ++ query ++ "%,description.ilike.%" ++ query
    ++ "%,city.ilike.%" ++ query ++ "%".

Definition searchProperties_query (query : string) : Builder :=
  from "properties"
  |> select "*,property_images(image_url,is_primary)"
  |> eq "status" (VText "active")
  |> or (search_conditions query)
  |> limit 20.

Definition searchProperties (query : string) : Async (list PropertyRow) :=
  resp <- await_properties (searchProperties_query query) ;;
  match error resp with
  | Some e =>
      console_error "Error searching properties:" e ;;
      ret []
  | None =>
      ret (match data resp with Some rows => rows | None => [] end)
  end.

Definition createInquiry_query (inquiry : Inquiry.t) : Builder :=
  from "inquiries" |> insert (InquiryBody [inquiry]).

Definition createInquiry (inquiry : Inquiry.t) : Async bool :=
  resp <- await_write (createInquiry_query inquiry) ;;
  match error resp with
  | Some e =>
      console_error "Error creating inquiry:" e ;;
      ret false
  | None => ret true
  end.

Definition saveProperty_query (userId propertyId : uuid) : Builder :=
  from "saved_properties"
  |> insert (SavedBody [{| saved_user_id := userId;
                           saved_property_id := propertyId |}]).

Definition saveProperty (userId propertyId : uuid) : Async bool :=
  resp <- await_write (saveProperty_query userId propertyId) ;;
  match error resp with
  | Some e =>
      if negb (code e =? "PGRST116")%string then
        console_error "Error saving property:" e ;;
        ret false
      else ret true
  | None => ret true
  end.

Definition removeSavedProperty_query (userId propertyId : uuid) : Builder :=
  from "saved_properties"
  |> delete
  |> eq "user_id" (VText userId)
  |> eq "property_id" (VText propertyId).

Definition removeSavedProperty (userId propertyId : uuid) : Async bool :=
  resp <- await_write (removeSavedProperty_query userId propertyId) ;;
  match error resp with
  | Some e =>
      console_error "Error removing saved property:" e ;;
      ret false
  | None => ret true
  end.

Definition getSavedProperties_query (userId : uuid) : Builder :=
  from "saved_properties"
  |> select "property_id,properties(*,property_images(image_url,is_primary))"
  |> eq "user_id" (VText userId).

(** [data?.map(item => item.properties) || []]: an entry is [None] where
    the embedded property is null. *)
Definition getSavedProperties (userId : uuid)
  : Async (list (option PropertyRow)) :=
  resp <- await_saved (getSavedProperties_query userId) ;;
  match error resp with
  | Some e =>
      console_error "Error fetching saved properties:" e ;;
      ret []
  | None =>
      ret (match data resp with
           | Some items => map item_properties items
           | None => []
           end)
  end.

End propertiesService.

(* ====================================================================== *)
(** ** Vocabulary of the statements *)
(* ====================================================================== *)

Module Vocabulary.
Import Schema Postgrest Client Js.

(** The filter a truthy field contributes, none otherwise. *)
Definition optional_filter {A : Type} `{Truthy A} (field : option A)
    (g : A -> Filter) : list Filter :=
  match field with
  | Some a => if truthy a then [g a] else []
  | None => []
  end.

(** The filters of the request of [getProperties], in the order the
    code adds them. *)
Definition getProperties_filters (f : Filters.t) : list Filter :=
  [Eq "status" (VText "active")]
  ++ optional_filter (Filters.city f) (fun c => Ilike "city" ("%" ++ c ++ "%"))
  ++ optional_filter (Filters.propertyType f) (fun t => Eq "property_type" (VText t))
  ++ optional_filter (Filters.minPrice f) (fun p => Gte "price" (VNum p))
  ++ optional_filter (Filters.maxPrice f) (fun p => Lte "price" (VNum p))
  ++ optional_filter (Filters.bedrooms f) (fun n => Gte "bedrooms" (VNum n))
  ++ optional_filter (Filters.listingType f) (fun t => Eq "listing_type" (VText t))
  ++ optional_filter (Filters.featured f) (fun _ => Eq "featured" (VBool true)).

(** A field keeps its value only if the value is truthy. *)
Definition keep_truthy {A : Type} `{Truthy A} (field : option A) : option A :=
  match field with
  | Some a => if truthy a then Some a else None
  | None => None
  end.

(** The filter object with every falsy field left out. *)
Definition without_falsy (f : Filters.t) : Filters.t :=
  {| Filters.city := keep_truthy (Filters.city f);
     Filters.propertyType := keep_truthy (Filters.propertyType f);
     Filters.minPrice := keep_truthy (Filters.minPrice f);
     Filters.maxPrice := keep_truthy (Filters.maxPrice f);
     Filters.bedrooms := keep_truthy (Filters.bedrooms f);
     Filters.listingType := keep_truthy (Filters.listingType f);
     Filters.featured := keep_truthy (Filters.featured f) |}.

(** Appending several filters at once. *)
Definition add_filters (fs : list Filter) : Builder -> Builder :=
  with_request (fun q =>
    {| table := table q; method := method q; columns := columns q;
       filters := filters q ++ fs; limit_rows := limit_rows q;
       body := body q |}).

(** A search text that the [or] string and the LIKE patterns take
    literally: no wildcard character, no comma, no parenthesis. *)
Definition is_separator (c : ascii) : bool :=
  (Ascii.eqb c "," || Ascii.eqb c "(" || Ascii.eqb c ")")%bool.

Definition literal_query (q : string) : bool :=
  (Text.wildcard_free q && Text.all_chars (fun c => negb (is_separator c)) q)%bool.

(** The property is in active status. *)
Definition active (r : PropertyRow) : bool := properties_select_policy r.

(** Title, description or city contains the text, whatever the case. *)
Definition mentions (q : string) (r : PropertyRow) : bool :=
  (Text.includes_ci q (title r)
   || Text.includes_ci q (description r)
   || Text.includes_ci q (city r))%bool.

(** [id] is the primary key of [properties]. *)
Definition primary_key (d : Database) : Prop :=
  NoDup (map id (properties d)).

(** The pair is in [saved_properties]. *)
Definition is_saved (d : Database) (u p : uuid) : bool :=
  existsb (same_saved {| saved_user_id := u; saved_property_id := p |})
    (saved_properties d).

(** Sessions. *)
Definition anonymous : Env := {| session := None; transport := Online |}.
Definition signed_in (u : uuid) : Env :=
  {| session := Some u; transport := Online |}.
Definition unreachable (e : PostgrestError) : Env :=
  {| session := None; transport := Refused e |}.

(** A small database: two active listings, one sold one, one user. *)
Definition villa : PropertyRow :=
  {| id := "p1"; title := "Villa"; description := "Garden and pool";
     property_type := "house"; listing_type := "sale"; price := 100;
     bedrooms := Some 4%Z; city := "Austin"; status := Some "active";
     featured := Some true; agent_id := None |}.
Definition loft : PropertyRow :=
  {| id := "p2"; title := "Loft"; description := "Near the station";
     property_type := "apartment"; listing_type := "rent"; price := 200;
     bedrooms := Some 1%Z; city := "Boston"; status := Some "sold";
     featured := Some false; agent_id := None |}.
Definition cabin : PropertyRow :=
  {| id := "p3"; title := "Cabin"; description := "Quiet";
     property_type := "house"; listing_type := "sale"; price := 50;
     bedrooms := None; city := "Reno"; status := Some "active";
     featured := None; agent_id := None |}.
Definition sample_db : Database :=
  {| properties := [villa; loft; cabin];
     saved_properties := [];
     inquiries := [];
     auth_users := ["u1"] |}.

(** The response a request settles with, given what the backend
    answers when the request reaches it. *)
Definition answered {A : Type} (env : Env) (online : Response A)
  : Response A :=
  match transport env with
  | Online => online
  | FetchFails n m => failed (fetch_error n m)
  | Refused e => failed e
  end.

(** The response carries an error. *)
Definition is_error {A : Type} (r : Response A) : bool :=
  match error r with Some _ => true | None => false end.

(** A filter object whose every field is present and falsy. *)
Definition all_falsy : Filters.t :=
  {| Filters.city := Some ""; Filters.propertyType := Some "";
     Filters.minPrice := Some 0%Z; Filters.maxPrice := Some 0%Z;
     Filters.bedrooms := Some 0%Z; Filters.listingType := Some "";
     Filters.featured := Some false |}.

(** [{ bedrooms: 0, featured: false }] *)
Definition no_bedrooms_not_featured : Filters.t :=
  {| Filters.city := None; Filters.propertyType := None;
     Filters.minPrice := None; Filters.maxPrice := None;
     Filters.bedrooms := Some 0%Z; Filters.listingType := None;
     Filters.featured := Some false |}.

(** Two calls in sequence, both results kept. *)
Definition twice {A : Type} (m : Async A) : Async (A * A) :=
  a <- m ;; b <- m ;; ret (a, b).

End Vocabulary.

(* ====================================================================== *)
(** ** The session helpers of the client module *)
(* ====================================================================== *)

Module Auth.
Import Schema Client.

(** The user object of a session; [id] is the identity the row policies
    compare with [auth.uid()]. *)
Record User := {
  id : uuid
}.

Record Session := {
  user : User
}.

(** The [data] of [auth.getSession()]: [{ session }], with [session]
    null when nobody is signed in. *)
Record SessionData := {
  session : option Session
}.

(** [supabase.auth.getSession()] reads the session the client holds; it
    sends no request to the tables. *)
Definition getSession : Async SessionData :=
  fun env st =>
    (Normal {| session :=
                 match Client.session env with
                 | Some u => Some {| user := {| id := u |} |}
                 | None => None
                 end |},
     st).

End Auth.

Module supabaseClient.
Import Client.

(** [return !!data.session] *)
Definition isAuthenticated : Async bool :=
  data <- Auth.getSession ;;
  ret (match Auth.session data with
       | Some _ => true
       | None => false
       end).

(** [return data.session?.user || null] *)
Definition getCurrentUser : Async (option Auth.User) :=
  data <- Auth.getSession ;;
  ret (match Auth.session data with
       | Some s => Some (Auth.user s)
       | None => None
       end).

End supabaseClient.

(* ====================================================================== *)
(** ** Vocabulary of the further statements *)
(* ====================================================================== *)

Module Integrity.
Import Schema Postgrest Client Js Vocabulary.

(** UNIQUE(user_id, property_id) holds in the table. *)
Definition unique_saved (d : Database) : Prop :=
  NoDup (saved_properties d).

(** The foreign keys of [saved_properties] and [inquiries] point at rows
    that exist. *)
Definition references_hold (d : Database) : Prop :=
  (forall r, In r (saved_properties d) ->
     user_exists d (saved_user_id r) = true
     /\ property_exists d (saved_property_id r) = true)
  /\ (forall i p, In i (inquiries d) -> inq_property_id i = Some p ->
        property_exists d p = true).

(** Title, description and city of the listing are ASCII text. *)
Definition ascii_listing (r : PropertyRow) : bool :=
  (Text.ascii_text (title r) && Text.ascii_text (description r)
   && Text.ascii_text (city r))%bool.

Definition ascii_listings (d : Database) : Prop :=
  forall r, In r (properties d) -> ascii_listing r = true.

(** PGRST116 is the answer of the REST layer to a single-object request
    that met no row or several rows.  An environment keeps the code for
    such requests when the platform answers no request with it on its
    own. *)
Definition single_object_code_kept (env : Env) : Prop :=
  forall e, transport env = Refused e -> code e <> "PGRST116"%string.

(** Two identifiers in the form the database prints, and a database
    with one user and one listing under them. *)
Definition ada_id : uuid := "6f1c2a9e-3b4d-4c5e-8f60-0123456789ab".
Definition lakeside_id : uuid := "0a1b2c3d-4e5f-4a6b-8c7d-9e8f7a6b5c4d".

Definition lakeside : PropertyRow :=
  {| id := lakeside_id; title := "Lakeside house";
     description := "Three rooms by the water";
     property_type := "house"; listing_type := "sale"; price := 320000;
     bedrooms := Some 3%Z; city := "Madison"; status := Some "active";
     featured := Some false; agent_id := None |}.

Definition registry_db : Database :=
  {| properties := [lakeside];
     saved_properties := [];
     inquiries := [];
     auth_users := [ada_id] |}.

(** The rows of [saved_properties] that belong to an identity. *)
Definition saved_of (u : uuid) (d : Database) : list SavedRow :=
  filter (fun r => (saved_user_id r =? u)%string) (saved_properties d).

(** The listing a saved row shows: the property it names, if that
    property is readable. *)
Definition shown (d : Database) (r : SavedRow) : option PropertyRow :=
  item_properties (embed_property d r).

(** What [console.error] has written by the end of a call. *)
Definition console_after {A : Type} (m : Async A) (env : Env) (d : Database)
  : list (string * PostgrestError) :=
  console (snd (run m env d)).

(** The entry a call writes for the error of its response, none without
    an error. *)
Definition logged (label : string) (e : option PostgrestError)
  : list (string * PostgrestError) :=
  match e with
  | Some x => [(label, x)]
  | None => []
  end.

(** A call whose value and effect on the database do not depend on what
    the console already holds, and that only appends to the console. *)
Definition console_blind {A : Type} (m : Async A) : Prop :=
  forall env d c,
    m env {| db := d; console := c |}
    = (result m env d,
       {| db := db_after m env d; console := c ++ console_after m env d |}).

(** The row an accepted inquiry becomes. *)
Definition inquiry_row (i : Inquiry.t) (n e m : string) : InquiryRow :=
  {| inq_property_id := Inquiry.property_id i;
     inq_name := n;
     inq_email := e;
     inq_phone := Inquiry.phone i;
     inq_message := m;
     inq_status := Some "new"%string |}.

(** The backend accepts the inquiry: the NOT NULL columns are there and
    the property reference, if given, names a property. *)
Definition acceptable (d : Database) (i : Inquiry.t) : bool :=
  match Inquiry.name i, Inquiry.email i, Inquiry.message i with
  | Some _, Some _, Some _ =>
      match Inquiry.property_id i with
      | Some p => property_exists d p
      | None => true
      end
  | _, _, _ => false
  end.

(** A second user and a database with saved pairs, for the examples. *)
Definition busy_db : Database :=
  {| properties := [villa; loft; cabin];
     saved_properties :=
       [{| saved_user_id := "u1"; saved_property_id := "p1" |};
        {| saved_user_id := "u2"; saved_property_id := "p3" |};
        {| saved_user_id := "u1"; saved_property_id := "p2" |}];
     inquiries := [];
     auth_users := ["u1"; "u2"] |}.

End Integrity.

(* ====================================================================== *)
(** ** The model at work *)
(* ====================================================================== *)

Section Runs.
Import Schema Postgrest Client Js propertiesService Vocabulary Integrity.

Example ilike_substring : Text.ilike_match "%Aus%" "East austin" = true.
Proof. reflexivity. Qed.

Example ilike_underscore : Text.ilike_match "%_%" "Villa" = true.
Proof. reflexivity. Qed.

Example ilike_star : Text.ilike_match "%a*n%" "Austin" = true.
Proof. reflexivity. Qed.

Example ilike_escaped_underscore : Text.ilike_match "%\_%" "Villa" = false.
Proof. reflexivity. Qed.

Example or_string_of_a_word :
  parse_or (search_conditions "aus")
  = Some [Ilike "title" "%aus%"; Ilike "description" "%aus%";
          Ilike "city" "%aus%"].
Proof. reflexivity. Qed.

Example or_string_with_a_comma : parse_or (search_conditions "a,b") = None.
Proof. reflexivity. Qed.

Example select_list_of_the_listing :
  embeddings ["properties"] ""
    (columns (request (getProperties_query Filters.empty)))
  = [("properties", "property_images"); ("properties", "property_features");
     ("properties", "agents")].
Proof. reflexivity. Qed.

Example select_list_of_the_saved_list :
  embeddings ["saved_properties"] ""
    (columns (request (getSavedProperties_query "u1")))
  = [("saved_properties", "properties"); ("properties", "property_images")].
Proof. reflexivity. Qed.

Example list_all :
  run (getProperties Filters.empty) anonymous sample_db
  = (Normal [],
     {| db := sample_db;
        console := [("Error fetching properties:", no_relationship)] |}).
Proof. reflexivity. Qed.

Example search_all : result (searchProperties "") anonymous sample_db
                     = Normal [villa; cabin].
Proof. reflexivity. Qed.

Example canonical_identifier : canonical_uuid ada_id = true.
Proof. reflexivity. Qed.

Example short_identifier : canonical_uuid "u1" = false.
Proof. reflexivity. Qed.

Example search_with_a_comma :
  run (searchProperties "a,b") anonymous sample_db
  = (Normal [],
     {| db := sample_db;
        console := [("Error searching properties:", parse_error)] |}).
Proof. reflexivity. Qed.

Example anonymous_cannot_save :
  run (saveProperty "u1" "p1") anonymous sample_db
  = (Normal false,
     {| db := sample_db;
        console := [("Error saving property:", rls_violation)] |}).
Proof. reflexivity. Qed.

Example save_then_list :
  result (saveProperty "u1" "p1" ;; saveProperty "u1" "p2" ;;
          getSavedProperties "u1") (signed_in "u1") sample_db
  = Normal [Some villa; None].
Proof. reflexivity. Qed.

Example save_then_remove :
  db_after (saveProperty "u1" "p1" ;; removeSavedProperty "u1" "p1")
    (signed_in "u1") sample_db
  = sample_db.
Proof. reflexivity. Qed.

Example fetch_failure :
  result (getPropertyById "p1")
    {| session := None; transport := FetchFails "TypeError" "Failed to fetch" |}
    sample_db
  = Normal None.
Proof. reflexivity. Qed.

End Runs.

(* ====================================================================== *)
(** ** Facts about text matching *)
(* ====================================================================== *)

Section TextFacts.
Import Text.
Local Open Scope string_scope.

Lemma all_chars_app (p : ascii -> bool) (a b : string) :
  all_chars p (a ++ b) = (all_chars p a && all_chars p b)%bool.
Proof.
  induction a as [|c a IH]; simpl; [reflexivity|].
  rewrite IH. now rewrite andb_assoc.
Qed.

Lemma lower_app (a b : string) : lower (a ++ b) = lower a ++ lower b.
Proof.
  induction a as [|c a IH]; simpl; [reflexivity|now rewrite IH].
Qed.

Lemma is_wildcard_lower (c : ascii) :
  is_wildcard (lower_ascii c) = is_wildcard c.
Proof.
  destruct c as [[] [] [] [] [] [] [] []]; reflexivity.
Qed.

Lemma wildcard_free_lower (q : string) :
  wildcard_free (lower q) = wildcard_free q.
Proof.
  unfold wildcard_free.
  induction q as [|c q IH]; simpl; [reflexivity|].
  now rewrite is_wildcard_lower, IH.
Qed.

Lemma star_to_percent_plain (q : string) :
  wildcard_free q = true -> star_to_percent q = q.
Proof.
  unfold wildcard_free.
  induction q as [|c q IH]; simpl; [reflexivity|].
  intros H. apply andb_true_iff in H as [Hc Hq].
  rewrite (IH Hq).
  unfold is_wildcard in Hc.
  destruct (Ascii.eqb c "*"); [|reflexivity].
  now rewrite !orb_true_r in Hc.
Qed.

Lemma star_to_percent_app (a b : string) :
  star_to_percent (a ++ b) = star_to_percent a ++ star_to_percent b.
Proof.
  induction a as [|c a IH]; simpl; [reflexivity|now rewrite IH].
Qed.

(** One unfolding of the matcher at a leading [%]. *)
Lemma like_percent (p s : string) :
  like_match (String "%" p) s
  = (like_match p s
     || match s with
        | EmptyString => false
        | String _ s' => like_match (String "%" p) s'
        end)%bool.
Proof. destruct s; reflexivity. Qed.

Lemma like_percent_all (s : string) : like_match "%" s = true.
Proof.
  induction s as [|c s IH]; [reflexivity|].
  rewrite like_percent, IH. apply orb_true_r.
Qed.

(** One unfolding of the matcher at a literal character. *)
Lemma like_literal (c : ascii) (p s : string) :
  is_wildcard c = false ->
  like_match (String c p) s
  = match s with
    | EmptyString => false
    | String e s' => (Ascii.eqb c e && like_match p s')%bool
    end.
Proof.
  unfold is_wildcard. intros H.
  apply orb_false_iff in H as [H _].
  apply orb_false_iff in H as [H Hesc].
  apply orb_false_iff in H as [Hpct Hund].
  simpl. rewrite Hpct, Hund, Hesc. reflexivity.
Qed.

Lemma like_plain_prefix (q s : string) :
  wildcard_free q = true ->
  like_match (q ++ "%") s = starts_with q s.
Proof.
  unfold wildcard_free. revert s.
  induction q as [|c q IH]; intros s H.
  - apply like_percent_all.
  - simpl in H. apply andb_true_iff in H as [Hc Hq].
    apply negb_true_iff in Hc.
    change (String c q ++ "%") with (String c (q ++ "%")).
    rewrite (like_literal _ _ _ Hc).
    destruct s as [|e s]; [reflexivity|].
    simpl. now rewrite IH.
Qed.

Lemma like_plain_infix (q s : string) :
  wildcard_free q = true ->
  like_match ("%" ++ q ++ "%") s = includes q s.
Proof.
  intros H.
  change ("%" ++ q ++ "%") with (String "%" (q ++ "%")).
  induction s as [|e s IH].
  - rewrite like_percent, like_plain_prefix by exact H.
    destruct q; reflexivity.
  - rewrite like_percent, like_plain_prefix by exact H.
    rewrite IH. destruct q; reflexivity.
Qed.

(** For a text without wildcard characters, [ILIKE '%text%'] is the
    case-insensitive substring test. *)
Lemma ilike_plain (q s : string) :
  wildcard_free q = true ->
  ilike_match ("%" ++ q ++ "%") s = includes_ci q s.
Proof.
  intros H. unfold ilike_match, includes_ci.
  rewrite !star_to_percent_app, (star_to_percent_plain q H).
  rewrite !lower_app.
  apply like_plain_infix.
  now rewrite wildcard_free_lower.
Qed.

Lemma split_on_nonempty (c : ascii) (s : string) : split_on c s <> [].
Proof.
  induction s as [|d s IH]; simpl; [discriminate|].
  destruct (Ascii.eqb d c); [discriminate|].
  destruct (split_on c s); [contradiction|discriminate].
Qed.

(** A text without the separator stays in the first piece. *)
Lemma split_on_prefix (c : ascii) (q rest : string) :
  all_chars (fun d => negb (Ascii.eqb d c)) q = true ->
  split_on c (q ++ rest)
  = match split_on c rest with
    | [] => [q]
    | w :: ws => (q ++ w) :: ws
    end.
Proof.
  induction q as [|d q IH]; simpl; intros H.
  - destruct (split_on c rest) eqn:E; [|reflexivity].
    now apply split_on_nonempty in E.
  - apply andb_true_iff in H as [Hd Hq].
    apply negb_true_iff in Hd. rewrite Hd, (IH Hq).
    destruct (split_on c rest); reflexivity.
Qed.

End TextFacts.

(* ====================================================================== *)
(** ** Facts about the requests the service builds *)
(* ====================================================================== *)

Section RequestFacts.
Import Schema Postgrest Client Js propertiesService Vocabulary.

Lemma add_filters_nil (b : Builder) : add_filters [] b = b.
Proof.
  destruct b as [[t m c fs l bd] s th].
  unfold add_filters, with_request; simpl. now rewrite app_nil_r.
Qed.

Lemma add_filters_add_filters (fs gs : list Filter) (b : Builder) :
  add_filters gs (add_filters fs b) = add_filters (fs ++ gs) b.
Proof.
  destruct b as [[t m c hs l bd] s th].
  unfold add_filters, with_request; simpl. now rewrite app_assoc.
Qed.

Lemma when_truthy_add {A : Type} `{Truthy A} (field : option A)
    (g : A -> Filter) (b : Builder) :
  when_truthy field (fun a => add_filter (g a)) b
  = add_filters (optional_filter field g) b.
Proof.
  unfold when_truthy, optional_filter.
  destruct field as [a|]; [destruct (truthy a)|];
    try (symmetry; apply add_filters_nil).
  reflexivity.
Qed.

(** The request of [getProperties], spelled out. *)
Lemma getProperties_query_shape (f : Filters.t) :
  getProperties_query f
  = {| request :=
         {| table := "properties"; method := GET;
            columns := "*,property_images(id,image_url,is_primary),property_features(feature_name,feature_value),agents(full_name,rating,total_sales)";
            filters := getProperties_filters f;
            limit_rows := Some 20; body := NoBody |};
       isMaybeSingle := false;
       shouldThrowOnError := false |}.
Proof.
  unfold getProperties_query, eq, gte, lte, ilike.
  rewrite !when_truthy_add.
  change (add_filter (Eq "status" (VText "active")))
    with (add_filters [Eq "status" (VText "active")]).
  rewrite !add_filters_add_filters.
  unfold getProperties_filters.
  rewrite <- ?app_assoc.
  reflexivity.
Qed.

Lemma keep_truthy_filter {A : Type} `{Truthy A} (field : option A)
    (g : A -> Filter) :
  optional_filter (keep_truthy field) g = optional_filter field g.
Proof.
  unfold optional_filter, keep_truthy.
  destruct field as [a|]; [|reflexivity].
  destruct (truthy a) eqn:E; [now rewrite E|reflexivity].
Qed.

Lemma getProperties_filters_without_falsy (f : Filters.t) :
  getProperties_filters (without_falsy f) = getProperties_filters f.
Proof.
  unfold getProperties_filters, without_falsy; simpl.
  now rewrite !keep_truthy_filter.
Qed.

(** The select list of [getProperties] embeds [agents], which no foreign
    key relates to [properties]: the backend rejects the request. *)
Lemma getProperties_rejected (f : Filters.t) (d : Database) :
  select_properties d (request (getProperties_query f))
  = failed no_relationship.
Proof. now rewrite getProperties_query_shape. Qed.

Lemma take_length {A : Type} (n : nat) (rows : list A) :
  length (take (Some n) rows) <= n.
Proof. simpl. rewrite length_firstn. lia. Qed.

Lemma take_in {A : Type} (l : option nat) (rows : list A) (x : A) :
  In x (take l rows) -> In x rows.
Proof.
  destruct l as [n|]; simpl; [|trivial].
  revert rows. induction n as [|n IH]; intros [|y rows]; simpl; try tauto.
  intros [->|H]; [now left|right; now apply IH].
Qed.

(** A selected row is visible under the policy and passes each filter
    of the request. *)
Lemma selected_properties_in (d : Database) (q : Request) (r : PropertyRow) :
  In r (selected_properties d q) ->
  In r (properties d) /\ active r = true
  /\ forall x, In x (filters q) -> filter_holds property_column x r = true.
Proof.
  unfold selected_properties. intros H.
  apply take_in, filter_In in H as [Hin H].
  apply andb_true_iff in H as [Hp Hf].
  repeat split; trivial.
  unfold filters_hold in Hf. rewrite forallb_forall in Hf. exact Hf.
Qed.

Lemma active_status (r : PropertyRow) :
  active r = true <-> status r = Some "active".
Proof.
  unfold active, properties_select_policy.
  destruct (status r) as [s|]; split; intros H; try discriminate.
  - apply String.eqb_eq in H. now subst.
  - injection H as ->. reflexivity.
Qed.

End RequestFacts.

(* ====================================================================== *)
(** ** How each call runs *)
(* ====================================================================== *)

Section RunFacts.
Import Schema Postgrest Client Js propertiesService Vocabulary.

(** A builder that is not in throwing mode settles with a response
    whatever happens to the request. *)
Lemma exchange_run {A : Type} (b : Builder)
    (backend : option uuid -> Database -> Response A * Database)
    (env : Env) (st : State) :
  shouldThrowOnError b = false ->
  exchange b backend env st
  = (Normal (answered env (fst (backend (session env) (db st)))),
     match transport env with
     | Online => {| db := snd (backend (session env) (db st));
                    console := console st |}
     | _ => st
     end).
Proof.
  intros Hb. unfold exchange, answered, settle. rewrite Hb.
  destruct (transport env); simpl.
  - destruct (backend (session env) (db st)) as [r d']; simpl.
    now destruct (error r).
  - reflexivity.
  - reflexivity.
Qed.

Lemma getProperties_result (f : Filters.t) (env : Env) (d : Database) :
  let resp := answered env (select_properties d (request (getProperties_query f))) in
  awaited_error (await_properties (getProperties_query f)) env d = error resp
  /\ result (getProperties f) env d
     = Normal (match error resp, data resp with
               | None, Some rows => rows
               | _, _ => []
               end).
Proof.
  unfold awaited_error, result, run, getProperties, bind, await_properties.
  rewrite exchange_run by (now rewrite getProperties_query_shape).
  simpl. split; [reflexivity|].
  destruct (error _); reflexivity.
Qed.

Lemma getFeaturedProperties_result (env : Env) (d : Database) :
  let resp := answered env (select_properties d (request getFeaturedProperties_query)) in
  awaited_error (await_properties getFeaturedProperties_query) env d = error resp
  /\ result getFeaturedProperties env d
     = Normal (match error resp, data resp with
               | None, Some rows => rows
               | _, _ => []
               end).
Proof.
  unfold awaited_error, result, run, getFeaturedProperties, bind, await_properties.
  rewrite exchange_run by reflexivity.
  simpl. split; [reflexivity|].
  destruct (error _); reflexivity.
Qed.

Lemma searchProperties_result (q : string) (env : Env) (d : Database) :
  let resp := answered env (select_properties d (request (searchProperties_query q))) in
  awaited_error (await_properties (searchProperties_query q)) env d = error resp
  /\ result (searchProperties q) env d
     = Normal (match error resp, data resp with
               | None, Some rows => rows
               | _, _ => []
               end).
Proof.
  unfold awaited_error, result, run, searchProperties, bind, await_properties.
  rewrite exchange_run by reflexivity.
  simpl. split; [reflexivity|].
  destruct (error _); reflexivity.
Qed.

Lemma getPropertyById_result (i : uuid) (env : Env) (d : Database) :
  let resp :=
    answered env (single_of (select_properties d (request (getPropertyById_query i)))) in
  awaited_error (await_property (getPropertyById_query i)) env d = error resp
  /\ result (getPropertyById i) env d
     = Normal (match error resp with
               | Some _ => None
               | None => data resp
               end).
Proof.
  unfold awaited_error, result, run, getPropertyById, bind, await_property.
  rewrite exchange_run by reflexivity.
  simpl. split; [reflexivity|].
  destruct (error _); reflexivity.
Qed.

Lemma createInquiry_result (i : Inquiry.t) (env : Env) (d : Database) :
  let resp :=
    answered env
      (fst (Postgrest.insert (session env) d (request (createInquiry_query i)))) in
  awaited_error (await_write (createInquiry_query i)) env d = error resp
  /\ result (createInquiry i) env d = Normal (negb (is_error resp)).
Proof.
  unfold awaited_error, result, run, createInquiry, bind, await_write, is_error.
  rewrite exchange_run by reflexivity.
  simpl. split; [reflexivity|].
  destruct (error _); reflexivity.
Qed.

Lemma saveProperty_result (u p : uuid) (env : Env) (d : Database) :
  let resp :=
    answered env
      (fst (Postgrest.insert (session env) d (request (saveProperty_query u p)))) in
  awaited_error (await_write (saveProperty_query u p)) env d = error resp
  /\ result (saveProperty u p) env d
     = Normal (match error resp with
               | Some e => (code e =? "PGRST116")%string
               | None => true
               end).
Proof.
  unfold awaited_error, result, run, saveProperty, bind, await_write.
  rewrite exchange_run by reflexivity.
  simpl. split; [reflexivity|].
  destruct (error _) as [e|]; [|reflexivity].
  destruct (code e =? "PGRST116")%string; reflexivity.
Qed.

Lemma removeSavedProperty_result (u p : uuid) (env : Env) (d : Database) :
  let resp :=
    answered env
      (fst (delete_saved (session env) d (request (removeSavedProperty_query u p)))) in
  awaited_error (await_write (removeSavedProperty_query u p)) env d = error resp
  /\ result (removeSavedProperty u p) env d = Normal (negb (is_error resp)).
Proof.
  unfold awaited_error, result, run, removeSavedProperty, bind, await_write, is_error.
  rewrite exchange_run by reflexivity.
  simpl. split; [reflexivity|].
  destruct (error _); reflexivity.
Qed.

Lemma getSavedProperties_result (u : uuid) (env : Env) (d : Database) :
  let resp :=
    answered env (select_saved (session env) d (request (getSavedProperties_query u))) in
  awaited_error (await_saved (getSavedProperties_query u)) env d = error resp
  /\ result (getSavedProperties u) env d
     = Normal (match error resp, data resp with
               | None, Some items => map item_properties items
               | _, _ => []
               end).
Proof.
  unfold awaited_error, result, run, getSavedProperties, bind, await_saved.
  rewrite exchange_run by reflexivity.
  simpl. split; [reflexivity|].
  destruct (error _); reflexivity.
Qed.

End RunFacts.

(* ====================================================================== *)
(** ** Error handling of the service *)
(* ====================================================================== *)

Section ErrorHandling.
Import Schema Postgrest Client Js propertiesService Vocabulary.

(** [saveProperty] answers [true] exactly when the response has no
    error or its error has the code PGRST116. *)
Lemma saveProperty_true_iff (u p : uuid) (env : Env) (d : Database) :
  result (saveProperty u p) env d = Normal true
  <-> (awaited_error (await_write (saveProperty_query u p)) env d = None
       \/ exists e,
            awaited_error (await_write (saveProperty_query u p)) env d = Some e
            /\ code e = "PGRST116").
Proof.
  destruct (saveProperty_result u p env d) as [-> ->].
  destruct (error _) as [e|].
  - split.
    + intros H. right. exists e. split; [reflexivity|].
      apply String.eqb_eq. congruence.
    + intros [H|(e' & H & Hc)]; [discriminate|].
      injection H as <-. now rewrite Hc.
  - split; [now left|reflexivity].
Qed.

(** A second insert of a pair that is already saved violates
    UNIQUE(user_id, property_id); the database reports SQLSTATE 23505,
    which is not the code [saveProperty] lets through. *)
Lemma saveProperty_already_saved (u p : uuid) (d : Database) :
  is_saved d u p = true ->
  awaited_error (await_write (saveProperty_query u p)) (signed_in u) d
  = Some unique_violation
  /\ result (saveProperty u p) (signed_in u) d = Normal false.
Proof.
  intros H.
  destruct (saveProperty_result u p (signed_in u) d) as [-> ->].
  unfold answered, Postgrest.insert; simpl.
  unfold insert_saved_row, own_saved_row; simpl.
  rewrite String.eqb_refl; simpl.
  unfold is_saved in H. rewrite H. simpl. split; reflexivity.
Qed.

(** C1. Saving the same (identity, property) pair twice: the first call
    answers [true] and leaves the pair saved; the second one meets the
    duplicate-key conflict of UNIQUE(user_id, property_id), reported
    under SQLSTATE 23505, and answers [false], because only the code
    PGRST116 is let through.  Neither call throws. *)
Theorem saveProperty_twice_second_false :
  result (twice (saveProperty "u1" "p1")) (signed_in "u1") sample_db
  = Normal (true, false)
  /\ is_saved (db_after (saveProperty "u1" "p1") (signed_in "u1") sample_db)
       "u1" "p1" = true
  /\ awaited_error (await_write (saveProperty_query "u1" "p1"))
       (signed_in "u1")
       (db_after (saveProperty "u1" "p1") (signed_in "u1") sample_db)
     = Some unique_violation.
Proof. repeat split. Qed.

End ErrorHandling.

(* ====================================================================== *)
(** ** Result limits *)
(* ====================================================================== *)

Section Limits.
Import Schema Postgrest Client Js propertiesService Vocabulary.

(** The rows of a read of [properties] under a limit. *)
Lemma select_properties_limit (env : Env) (d : Database) (q : Request)
    (n : nat) :
  limit_rows q = Some n ->
  length (match error (answered env (select_properties d q)),
                data (answered env (select_properties d q)) with
          | None, Some rows => rows
          | _, _ => []
          end) <= n.
Proof.
  intros Hl. unfold answered.
  destruct (transport env); simpl; try lia.
  unfold select_properties.
  destruct (negb _); simpl; [lia|].
  destruct (embed_error q); simpl; [lia|].
  destruct (filters_error _ _); simpl; [lia|].
  unfold selected_properties. rewrite Hl. apply take_length.
Qed.

(** C3. Whatever the filters, the search text, the session, the state
    of the database and the fate of the request, [getProperties] and
    [searchProperties] return at most 20 rows and
    [getFeaturedProperties] at most 6. *)
Theorem result_limits (env : Env) (d : Database) :
  (forall f, exists rows,
      result (getProperties f) env d = Normal rows /\ length rows <= 20)
  /\ (forall q, exists rows,
         result (searchProperties q) env d = Normal rows /\ length rows <= 20)
  /\ (exists rows,
         result getFeaturedProperties env d = Normal rows /\ length rows <= 6).
Proof.
  repeat split.
  - intros f. destruct (getProperties_result f env d) as [_ ->].
    eexists; split; [reflexivity|].
    apply select_properties_limit. now rewrite getProperties_query_shape.
  - intros q. destruct (searchProperties_result q env d) as [_ ->].
    eexists; split; [reflexivity|].
    now apply select_properties_limit.
  - destruct (getFeaturedProperties_result env d) as [_ ->].
    eexists; split; [reflexivity|].
    now apply select_properties_limit.
Qed.

End Limits.

(* ====================================================================== *)
(** ** Search *)
(* ====================================================================== *)

Section Search.
Import Schema Postgrest Client Js propertiesService Vocabulary Integrity.
Local Open Scope string_scope.

Lemma string_app_assoc (a b c : string) : (a ++ b) ++ c = a ++ b ++ c.
Proof. induction a as [|x a IH]; simpl; [reflexivity|now rewrite IH]. Qed.

Lemma string_app_empty (a : string) : a ++ "" = a.
Proof. induction a as [|x a IH]; simpl; [reflexivity|now rewrite IH]. Qed.

(** A piece without the separator, followed by the separator. *)
Lemma split_on_piece (c : ascii) (q rest : string) :
  Text.all_chars (fun d => negb (Ascii.eqb d c)) q = true ->
  Text.split_on c (q ++ String c rest) = q :: Text.split_on c rest.
Proof.
  intros H. rewrite (split_on_prefix c q _ H). simpl.
  rewrite Ascii.eqb_refl. now rewrite string_app_empty.
Qed.

Lemma split_on_last (c : ascii) (q : string) :
  Text.all_chars (fun d => negb (Ascii.eqb d c)) q = true ->
  Text.split_on c q = [q].
Proof.
  intros H. rewrite <- (string_app_empty q) at 1.
  rewrite (split_on_prefix c q _ H). simpl. now rewrite string_app_empty.
Qed.

Lemma literal_query_parts (q : string) :
  literal_query q = true ->
  Text.wildcard_free q = true
  /\ Text.all_chars (fun d => negb (Ascii.eqb d ",")) q = true
  /\ Text.all_chars (fun c => negb (Ascii.eqb c "(" || Ascii.eqb c ")")) q = true.
Proof.
  unfold literal_query, is_separator. intros H.
  apply andb_true_iff in H as [Hw Hs]. split; [exact Hw|].
  clear Hw. induction q as [|c q IH]; simpl in *; [now split|].
  apply andb_true_iff in Hs as [Hc Hq].
  destruct (IH Hq) as [-> ->].
  destruct (Ascii.eqb c ","), (Ascii.eqb c "("), (Ascii.eqb c ")");
    simpl in *; try discriminate; now split.
Qed.

(** The three conditions the REST layer reads in the [or] string of a
    literal search text. *)
Lemma search_conditions_parse (q : string) :
  literal_query q = true ->
  parse_or (search_conditions q)
  = Some [Ilike "title" ("%" ++ q ++ "%");
          Ilike "description" ("%" ++ q ++ "%");
          Ilike "city" ("%" ++ q ++ "%")].
Proof.
  intros H. apply literal_query_parts in H as (_ & Hcomma & Hparen).
  assert (Hpiece : forall field,
    Text.all_chars (fun d => negb (Ascii.eqb d ",")) field = true ->
    Text.all_chars (fun d => negb (Ascii.eqb d ","))
      (field ++ ".ilike.%" ++ q ++ "%") = true).
  { intros field Hf. rewrite !all_chars_app, Hf, Hcomma. reflexivity. }
  unfold parse_or, search_conditions.
  replace ("title.ilike.%" ++ q ++ "%,description.ilike.%" ++ q
             ++ "%,city.ilike.%" ++ q ++ "%")
    with (("title" ++ ".ilike.%" ++ q ++ "%")
            ++ String ","
                 (("description" ++ ".ilike.%" ++ q ++ "%")
                    ++ String "," ("city" ++ ".ilike.%" ++ q ++ "%")))
    by (simpl; rewrite !string_app_assoc; reflexivity).
  rewrite !split_on_piece, split_on_last by (apply Hpiece; reflexivity).
  unfold parse_conditions, parse_condition.
  cbn [Text.cut_at append Ascii.eqb Bool.eqb].
  cbn [Text.all_chars Ascii.eqb Bool.eqb negb orb andb String.eqb].
  rewrite !all_chars_app, Hparen. reflexivity.
Qed.

Lemma status_filter_holds (r : PropertyRow) :
  filter_holds property_column (Eq "status" (VText "active")) r = active r.
Proof.
  unfold active, properties_select_policy. simpl.
  unfold on_column; simpl. now destruct (status r).
Qed.

(** What the two filters of a search with a literal text test on a row. *)
Lemma search_filters_hold (q : string) (r : PropertyRow) :
  literal_query q = true ->
  filters_hold property_column (filters (request (searchProperties_query q))) r
  = (active r && mentions q r)%bool.
Proof.
  intros H.
  change (filters (request (searchProperties_query q)))
    with [Eq "status" (VText "active"); Or (search_conditions q)].
  unfold filters_hold, forallb.
  rewrite status_filter_holds. unfold filter_holds.
  rewrite (search_conditions_parse q H).
  apply literal_query_parts in H as (Hw & _ & _).
  unfold existsb, simple_holds, on_column, mentions; simpl.
  rewrite !(ilike_plain q _ Hw).
  now rewrite andb_true_r, orb_false_r, orb_assoc.
Qed.

Lemma search_filters_valid (q : string) :
  literal_query q = true ->
  filters_error property_columns (filters (request (searchProperties_query q)))
  = None.
Proof.
  intros H.
  change (filters (request (searchProperties_query q)))
    with [Eq "status" (VText "active"); Or (search_conditions q)].
  unfold filters_error, filter_error.
  rewrite (search_conditions_parse q H). reflexivity.
Qed.

Lemma search_select (q : string) (d : Database) :
  select_properties d (request (searchProperties_query q))
  = match filters_error property_columns
            (filters (request (searchProperties_query q))) with
    | Some e => failed e
    | None => ok (selected_properties d (request (searchProperties_query q)))
    end.
Proof. reflexivity. Qed.

(** C4, as stated, fails: the text ["_"] is a LIKE wildcard for any one
    character, so the search returns a listing none of whose title,
    description and city contains an underscore. *)
Lemma searchProperties_wildcard_text :
  result (searchProperties "_") anonymous sample_db = Normal [villa; cabin]
  /\ Text.includes_ci "_" (title villa) = false
  /\ Text.includes_ci "_" (description villa) = false
  /\ Text.includes_ci "_" (city villa) = false.
Proof. repeat split. Qed.

(** C4 (amended). [searchProperties] never throws and returns only
    listings in active status.  For an ASCII search text without the
    characters [%], [_], [\], [*], [,], [(] and [)], over listings whose
    title, description and city are ASCII text, every returned listing
    has the text in its title, description or city, whatever the letter
    case; when the request reaches the backend the result is the first
    20, in table order, of the active listings that do, so a listing with
    the text only in its city is returned whenever at most 20 listings
    match. *)
Theorem searchProperties_literal (q : string) (env : Env) (d : Database) :
  exists rows,
    result (searchProperties q) env d = Normal rows
    /\ (forall r, In r rows -> status r = Some "active")
    /\ (literal_query q = true -> Text.ascii_text q = true ->
        ascii_listings d ->
        (forall r, In r rows -> mentions q r = true)
        /\ (transport env = Online ->
            rows = firstn 20 (filter (fun r => active r && mentions q r)%bool
                                (properties d))
            /\ (length (filter (fun r => active r && mentions q r)%bool
                          (properties d)) <= 20 ->
                forall r, In r (properties d) ->
                          status r = Some "active" ->
                          Text.includes_ci q (city r) = true ->
                          In r rows))).
Proof.
  destruct (searchProperties_result q env d) as [_ ->].
  eexists; split; [reflexivity|].
  unfold answered.
  destruct (transport env) eqn:Ht;
    try (simpl; split; [contradiction|]; intros Hq Hascii Hrows; split;
         [contradiction|discriminate]).
  rewrite search_select.
  split.
  - intros r Hr.
    destruct (filters_error _ _); simpl in Hr; [contradiction|].
    apply selected_properties_in in Hr as (_ & Ha & _).
    now apply active_status.
  - intros Hq Hascii Hrows.
    rewrite (search_filters_valid q Hq). cbn [error data ok].
    assert (E : selected_properties d (request (searchProperties_query q))
                = firstn 20 (filter (fun r => active r && mentions q r)%bool
                               (properties d))).
    { unfold selected_properties.
      change (limit_rows (request (searchProperties_query q))) with (Some 20).
      unfold take. f_equal. apply filter_ext. intros r.
      rewrite (search_filters_hold q r Hq).
      unfold active. now destruct (properties_select_policy r). }
    rewrite E. split.
    + intros r Hr. apply take_in with (l := Some 20), filter_In in Hr.
      destruct Hr as [_ Hr]. now apply andb_true_iff in Hr.
    + intros _. split; [reflexivity|].
      intros Hlen r Hin Hs Hc.
      rewrite firstn_all2 by exact Hlen.
      apply filter_In. split; [exact Hin|].
      apply active_status in Hs. rewrite Hs. unfold mentions.
      rewrite Hc. now rewrite orb_true_r.
Qed.

(** A search for ["aus"] finds the listing in Austin, whose title and
    description do not contain the text. *)
Lemma searchProperties_literal_witness :
  literal_query "aus" = true
  /\ result (searchProperties "aus") anonymous sample_db = Normal [villa]
  /\ Text.includes_ci "aus" (title villa) = false
  /\ Text.includes_ci "aus" (description villa) = false
  /\ In villa (firstn 20 (filter (fun r => active r && mentions "aus" r)%bool
                            (properties sample_db))).
Proof.
  destruct (searchProperties_literal "aus" anonymous sample_db)
    as (rows & Hrows & _ & H).
  assert (Hascii : ascii_listings sample_db).
  { intros r [<-|[<-|[<-|[]]]]; reflexivity. }
  destruct (H eq_refl eq_refl Hascii) as (_ & Hon).
  destruct (Hon eq_refl) as (E & _).
  repeat split.
  rewrite <- E.
  assert (R : result (searchProperties "aus") anonymous sample_db
              = Normal [villa]) by reflexivity.
  rewrite R in Hrows. injection Hrows as <-. now left.
Defined.

End Search.

(* ====================================================================== *)
(** ** Reading one property *)
(* ====================================================================== *)

Section ById.
Import Schema Postgrest Client Js propertiesService Vocabulary.

(** The select list of [getPropertyById] embeds [agents], which no
    foreign key relates to [properties]: the backend rejects the
    request. *)
Lemma getPropertyById_rejected (i : uuid) (d : Database) :
  select_properties d (request (getPropertyById_query i))
  = failed no_relationship.
Proof. reflexivity. Qed.

Lemma filter_nothing {A : Type} (f : A -> bool) (l : list A) :
  (forall x, In x l -> f x = false) -> filter f l = [].
Proof.
  induction l as [|a l IH]; simpl; intros H; [reflexivity|].
  rewrite (H a) by now left. apply IH. intros x Hx. apply H. now right.
Qed.

Lemma filter_everything {A : Type} (f : A -> bool) (l : list A) :
  (forall x, In x l -> f x = true) -> filter f l = l.
Proof.
  induction l as [|a l IH]; simpl; intros H; [reflexivity|].
  rewrite (H a) by now left. f_equal. apply IH. intros x Hx. apply H. now right.
Qed.

(** Every response to the request of [getPropertyById] carries an error,
    and the call answers null. *)
Lemma getPropertyById_null (i : uuid) (env : Env) (d : Database) :
  result (getPropertyById i) env d = Normal None
  /\ exists e,
       awaited_error (await_property (getPropertyById_query i)) env d = Some e
       /\ (transport env = Online -> e = no_relationship).
Proof.
  destruct (getPropertyById_result i env d) as [-> ->].
  unfold answered. rewrite getPropertyById_rejected.
  destruct (transport env); simpl; split; trivial; eexists; split;
    try reflexivity; discriminate.
Qed.


(** The rows the request of [getPropertyById] selects are the rows with
    the identifier that the read policy admits. *)
Lemma getPropertyById_selected (i : uuid) (d : Database) (r : PropertyRow) :
  In r (selected_properties d (request (getPropertyById_query i)))
  <-> In r (properties d) /\ id r = i /\ properties_select_policy r = true.
Proof.
  change (selected_properties d (request (getPropertyById_query i)))
    with (filter (fun r => properties_select_policy r
                           && ((id r =? i)%string && true))%bool
            (properties d)).
  rewrite filter_In, andb_true_iff, andb_true_r, String.eqb_eq. tauto.
Qed.

(** C10. The request of [getPropertyById] filters on [id] alone, while
    the requests of [getProperties], [getFeaturedProperties] and
    [searchProperties] all carry [status = 'active'].  Which rows the
    request selects is therefore decided by the read policy of
    [properties], which admits exactly the rows in active status: a row
    with the identifier is selected exactly if the policy admits it. *)
Theorem getPropertyById_policy_decides :
  (forall i, filters (request (getPropertyById_query i)) = [Eq "id" (VText i)])
  /\ (forall f, In (Eq "status" (VText "active"))
                  (filters (request (getProperties_query f))))
  /\ In (Eq "status" (VText "active"))
        (filters (request getFeaturedProperties_query))
  /\ (forall q, In (Eq "status" (VText "active"))
                  (filters (request (searchProperties_query q))))
  /\ (forall r, properties_select_policy r = true <-> status r = Some "active")
  /\ (forall i d r,
         In r (selected_properties d (request (getPropertyById_query i)))
         <-> In r (properties d) /\ id r = i
             /\ properties_select_policy r = true).
Proof.
  split; [reflexivity|].
  split; [intros f; rewrite getProperties_query_shape; now left|].
  split; [simpl; tauto|].
  split; [intros q; simpl; tauto|].
  split; [intros r; apply active_status|].
  apply getPropertyById_selected.
Qed.

End ById.

(* ====================================================================== *)
(** ** Listing with filters *)
(* ====================================================================== *)

Section Listing.
Import Schema Postgrest Client Js propertiesService Vocabulary.

(** Every response to the request of [getProperties] carries an error,
    and the call answers the empty list. *)
Lemma getProperties_empty (f : Filters.t) (env : Env) (d : Database) :
  result (getProperties f) env d = Normal []
  /\ exists e,
       awaited_error (await_properties (getProperties_query f)) env d = Some e
       /\ (transport env = Online -> e = no_relationship).
Proof.
  destruct (getProperties_result f env d) as [-> ->].
  unfold answered. rewrite getProperties_rejected.
  destruct (transport env); simpl; split; trivial; eexists; split;
    try reflexivity; discriminate.
Qed.


(** C9. A filter field whose value is falsy ([0], [false], the empty
    string) or that is absent adds no constraint: the request built from
    a filter object is the request built from the same object with its
    falsy fields left out, its filters are [status = 'active'] followed
    by one filter per truthy field, and so the call itself is the same.
    In particular [{ bedrooms: 0, featured: false }], and the object
    with every field falsy, build the request of the empty object. *)
Theorem getProperties_ignores_falsy (f : Filters.t) :
  getProperties_query f = getProperties_query (without_falsy f)
  /\ getProperties f = getProperties (without_falsy f)
  /\ filters (request (getProperties_query f)) = getProperties_filters f
  /\ getProperties_query no_bedrooms_not_featured
     = getProperties_query Filters.empty
  /\ getProperties no_bedrooms_not_featured = getProperties Filters.empty
  /\ getProperties_query all_falsy = getProperties_query Filters.empty
  /\ filters (request (getProperties_query Filters.empty))
     = [Eq "status" (VText "active")].
Proof.
  assert (E : getProperties_query f = getProperties_query (without_falsy f)).
  { rewrite !getProperties_query_shape.
    now rewrite getProperties_filters_without_falsy. }
  split; [exact E|].
  split; [unfold getProperties; now rewrite <- E|].
  split; [now rewrite getProperties_query_shape|].
  repeat split.
Qed.

End Listing.

(* ====================================================================== *)
(** ** Saved properties and inquiries *)
(* ====================================================================== *)

Section Writes.
Import Schema Postgrest Client Js propertiesService Vocabulary Integrity.

(** The delete request of [removeSavedProperty] is never rejected by
    the backend. *)
Lemma removeSavedProperty_delete (uid : option uuid) (u p : uuid)
    (d : Database) :
  fst (delete_saved uid d (request (removeSavedProperty_query u p)))
  = no_content.
Proof. reflexivity. Qed.

(** What the two filters of the delete test on a row. *)
Lemma removeSavedProperty_filters (u p : uuid) (r : SavedRow) :
  filters_hold saved_column
    (filters (request (removeSavedProperty_query u p))) r
  = same_saved {| saved_user_id := u; saved_property_id := p |} r.
Proof.
  unfold same_saved; simpl. unfold on_column; simpl.
  rewrite andb_true_r.
  now rewrite (String.eqb_sym (saved_user_id r)),
              (String.eqb_sym (saved_property_id r)).
Qed.

(** The database after the call: what the delete leaves, if the request
    reached the backend. *)
Lemma removeSavedProperty_db_after (u p : uuid) (env : Env) (d : Database) :
  db_after (removeSavedProperty u p) env d
  = match transport env with
    | Online =>
        snd (delete_saved (session env) d
               (request (removeSavedProperty_query u p)))
    | _ => d
    end.
Proof.
  unfold db_after, run, removeSavedProperty, bind, await_write.
  rewrite exchange_run by reflexivity.
  cbn [fst snd db console].
  destruct (error _); unfold console_error, ret, bind;
    cbn [fst snd db console]; now destruct (transport env).
Qed.

(** Delete by filter of a pair that is not saved removes nothing. *)
Lemma delete_saved_missing (uid : option uuid) (u p : uuid) (d : Database) :
  is_saved d u p = false ->
  snd (delete_saved uid d (request (removeSavedProperty_query u p))) = d.
Proof.
  intros Hs. unfold delete_saved.
  change (table (request (removeSavedProperty_query u p)))
    with "saved_properties"%string.
  change (filters_error saved_columns
            (filters (request (removeSavedProperty_query u p))))
    with (@None PostgrestError).
  cbn [negb String.eqb Ascii.eqb Bool.eqb snd saved_properties].
  rewrite filter_everything; [now destruct d|].
  intros x Hx. rewrite removeSavedProperty_filters.
  unfold is_saved in Hs.
  rewrite <- not_true_iff_false, existsb_exists in Hs.
  destruct (same_saved _ x) eqn:Ex.
  - exfalso. apply Hs. now exists x.
  - now rewrite andb_false_r.
Qed.

(** C7. [removeSavedProperty] never throws.  It answers [false] exactly
    when the response carries an error.  For an identity and a property
    reference that are uuids, when the request reaches the backend it
    answers [true], whether or not the pair is saved, and if the pair is
    not saved the database is left as it was. *)
Theorem removeSavedProperty_missing_true (u p : uuid) (env : Env)
    (d : Database) :
  exists b,
    result (removeSavedProperty u p) env d = Normal b
    /\ (b = false <->
        exists e,
          awaited_error (await_write (removeSavedProperty_query u p)) env d
          = Some e)
    /\ (canonical_uuid u = true -> canonical_uuid p = true ->
        transport env = Online -> b = true)
    /\ (canonical_uuid u = true -> canonical_uuid p = true ->
        transport env = Online -> is_saved d u p = false ->
        db_after (removeSavedProperty u p) env d = d).
Proof.
  destruct (removeSavedProperty_result u p env d) as [E ->].
  eexists; split; [reflexivity|].
  rewrite E. clear E. rewrite removeSavedProperty_delete.
  unfold answered, is_error.
  repeat split.
  - destruct (transport env); simpl; intros H; try discriminate; eauto.
  - destruct (transport env); simpl; intros [e' He]; try discriminate;
      reflexivity.
  - intros Hu Hp Ht. now rewrite Ht.
  - intros Hu Hp Ht Hs. rewrite removeSavedProperty_db_after, Ht.
    now apply delete_saved_missing.
Qed.

(** Removing a pair that was never saved. *)
Lemma removeSavedProperty_missing_true_witness :
  canonical_uuid ada_id = true /\ canonical_uuid lakeside_id = true
  /\ is_saved registry_db ada_id lakeside_id = false
  /\ result (removeSavedProperty ada_id lakeside_id) (signed_in ada_id)
       registry_db
     = Normal true
  /\ db_after (removeSavedProperty ada_id lakeside_id) (signed_in ada_id)
       registry_db
     = registry_db.
Proof.
  destruct (removeSavedProperty_missing_true ada_id lakeside_id
              (signed_in ada_id) registry_db) as (b & Hres & _ & Htrue & Hsame).
  split; [reflexivity|]. split; [reflexivity|]. split; [reflexivity|].
  split.
  - rewrite Hres. f_equal. apply Htrue; reflexivity.
  - apply Hsame; reflexivity.
Defined.

(** The insert of [createInquiry] succeeds or fails as the insert of
    its one row does. *)
Lemma createInquiry_insert (uid : option uuid) (i : Inquiry.t) (d : Database) :
  fst (Postgrest.insert uid d (request (createInquiry_query i)))
  = match insert_inquiry_row d i with
    | inl e => failed e
    | inr _ => no_content
    end.
Proof.
  unfold Postgrest.insert; simpl.
  now destruct (insert_inquiry_row d i).
Qed.

(** C8, as stated, fails on the property reference: the column is a
    nullable foreign key, so an inquiry that leaves it out is accepted
    and the call answers [true]. *)
Lemma createInquiry_without_property :
  result
    (createInquiry
       {| Inquiry.property_id := None; Inquiry.name := Some "Ada";
          Inquiry.email := Some "ada@example.org"; Inquiry.phone := None;
          Inquiry.message := Some "Any listing by the lake?" |})
    anonymous sample_db = Normal true.
Proof. reflexivity. Qed.

(** C8 (amended). [createInquiry] never throws and answers [false]
    exactly when the response carries an error.  It answers [true] when
    the request reaches the backend, name, email and message are
    present, and the property reference is either left out or names an
    existing property.  It answers [false] when name, email or message
    is left out, the backend rejecting the row for the NOT NULL
    column. *)
Theorem createInquiry_required_fields (i : Inquiry.t) (env : Env)
    (d : Database) :
  exists b,
    result (createInquiry i) env d = Normal b
    /\ (b = false <->
        exists e,
          awaited_error (await_write (createInquiry_query i)) env d = Some e)
    /\ (transport env = Online ->
        Inquiry.name i <> None -> Inquiry.email i <> None ->
        Inquiry.message i <> None ->
        (forall p, Inquiry.property_id i = Some p -> property_exists d p = true) ->
        b = true)
    /\ (Inquiry.name i = None \/ Inquiry.email i = None
        \/ Inquiry.message i = None ->
        b = false).
Proof.
  destruct (createInquiry_result i env d) as [E ->].
  eexists; split; [reflexivity|].
  rewrite E. clear E. rewrite createInquiry_insert.
  unfold answered, is_error.
  repeat split.
  - destruct (error _) as [e|]; simpl; intros H; [eauto|discriminate].
  - intros [e ->]. reflexivity.
  - intros Ht Hn He Hm Hp. rewrite Ht.
    unfold insert_inquiry_row; simpl.
    destruct (Inquiry.name i) as [n|]; [|contradiction].
    destruct (Inquiry.email i) as [m|]; [|contradiction].
    destruct (Inquiry.message i) as [t|]; [|contradiction].
    destruct (Inquiry.property_id i) as [p|]; [|reflexivity].
    now rewrite (Hp p eq_refl).
  - intros H. destruct (transport env); try reflexivity.
    unfold insert_inquiry_row; simpl.
    destruct (Inquiry.name i), (Inquiry.email i), (Inquiry.message i);
      try reflexivity.
    destruct H as [H|[H|H]]; discriminate.
Qed.

(** A complete inquiry is accepted; the same inquiry without its
    message is rejected. *)
Lemma createInquiry_required_fields_witness :
  result
    (createInquiry
       {| Inquiry.property_id := Some "p1"; Inquiry.name := Some "Ada";
          Inquiry.email := Some "ada@example.org"; Inquiry.phone := None;
          Inquiry.message := Some "Is it still available?" |})
    anonymous sample_db = Normal true
  /\ result
       (createInquiry
          {| Inquiry.property_id := Some "p1"; Inquiry.name := Some "Ada";
             Inquiry.email := Some "ada@example.org"; Inquiry.phone := None;
             Inquiry.message := None |})
       anonymous sample_db = Normal false.
Proof.
  split.
  - destruct (createInquiry_required_fields
                {| Inquiry.property_id := Some "p1"; Inquiry.name := Some "Ada";
                   Inquiry.email := Some "ada@example.org"; Inquiry.phone := None;
                   Inquiry.message := Some "Is it still available?" |}
                anonymous sample_db) as (b & Hres & _ & Htrue & _).
    rewrite Hres. f_equal.
    apply Htrue; try reflexivity; try discriminate.
    intros p Hp. injection Hp as <-. reflexivity.
  - destruct (createInquiry_required_fields
                {| Inquiry.property_id := Some "p1"; Inquiry.name := Some "Ada";
                   Inquiry.email := Some "ada@example.org"; Inquiry.phone := None;
                   Inquiry.message := None |}
                anonymous sample_db) as (b & Hres & _ & _ & Hfalse).
    rewrite Hres. f_equal.
    apply Hfalse. right; right. reflexivity.
Defined.

End Writes.

(* ====================================================================== *)
(** ** Sequencing calls *)
(* ====================================================================== *)

Section Sequencing.
Import Schema Postgrest Client Js propertiesService Vocabulary Integrity.

(** The state a request leaves, whatever the console held. *)
Lemma exchange_state {A : Type} (b : Builder)
    (backend : option uuid -> Database -> Response A * Database)
    (env : Env) (d : Database) (c : list (string * PostgrestError)) :
  shouldThrowOnError b = false ->
  exchange b backend env {| db := d; console := c |}
  = (Normal (answered env (fst (backend (session env) d))),
     {| db := match transport env with
              | Online => snd (backend (session env) d)
              | _ => d
              end;
        console := c |}).
Proof.
  intros Hb. rewrite (exchange_run b backend env _ Hb).
  now destruct (transport env).
Qed.

Ltac blind_call :=
  intros env d c;
  unfold console_blind, console_after, db_after, result, run, bind,
    await_properties, await_property, await_saved, await_write;
  rewrite !exchange_state by
    (try reflexivity; now rewrite getProperties_query_shape);
  cbn [fst snd db console];
  repeat match goal with
         | |- context [match error ?r with _ => _ end] => destruct (error r)
         | |- context [if ?b then _ else _] => destruct b
         end;
  unfold console_error, ret; cbn [fst snd db console app];
  rewrite ?app_nil_r; reflexivity.

Lemma getProperties_blind (f : Filters.t) : console_blind (getProperties f).
Proof. unfold getProperties. blind_call. Qed.

Lemma getPropertyById_blind (i : uuid) : console_blind (getPropertyById i).
Proof. unfold getPropertyById. blind_call. Qed.

Lemma getFeaturedProperties_blind : console_blind getFeaturedProperties.
Proof. unfold getFeaturedProperties. blind_call. Qed.

Lemma searchProperties_blind (q : string) : console_blind (searchProperties q).
Proof. unfold searchProperties. blind_call. Qed.

Lemma createInquiry_blind (i : Inquiry.t) : console_blind (createInquiry i).
Proof. unfold createInquiry. blind_call. Qed.

Lemma saveProperty_blind (u p : uuid) : console_blind (saveProperty u p).
Proof. unfold saveProperty. blind_call. Qed.

Lemma removeSavedProperty_blind (u p : uuid) :
  console_blind (removeSavedProperty u p).
Proof. unfold removeSavedProperty. blind_call. Qed.

Lemma getSavedProperties_blind (u : uuid) :
  console_blind (getSavedProperties u).
Proof. unfold getSavedProperties. blind_call. Qed.

(** The second of two calls runs on the database the first one left. *)
Lemma result_then {A B : Type} (m : Async A) (k : Async B)
    (env : Env) (d : Database) :
  console_blind k ->
  result (m ;; k) env d
  = match result m env d with
    | Normal _ => result k env (db_after m env d)
    | Throw r => Throw r
    end.
Proof.
  intros Hk. unfold result, db_after, run, bind.
  destruct (m env _) as [[a|r] [d' c']]; cbn [fst snd db]; [|reflexivity].
  now rewrite Hk.
Qed.

Lemma db_after_then {A B : Type} (m : Async A) (k : Async B)
    (env : Env) (d : Database) :
  console_blind k ->
  (exists a, result m env d = Normal a) ->
  db_after (m ;; k) env d = db_after k env (db_after m env d).
Proof.
  intros Hk [a Ha]. unfold result, db_after, run, bind in *.
  destruct (m env _) as [[a'|r] [d' c']]; cbn [fst snd db] in *;
    [|discriminate].
  now rewrite Hk.
Qed.

(** The database a write leaves. *)
Lemma saveProperty_db_after (u p : uuid) (env : Env) (d : Database) :
  db_after (saveProperty u p) env d
  = match transport env with
    | Online =>
        snd (Postgrest.insert (session env) d (request (saveProperty_query u p)))
    | _ => d
    end.
Proof.
  unfold db_after, run, saveProperty, bind, await_write.
  rewrite exchange_state by reflexivity. cbn [fst snd db console].
  destruct (error _) as [e|]; [destruct (negb _)|];
    unfold console_error, ret, bind; reflexivity.
Qed.

Lemma createInquiry_db_after (i : Inquiry.t) (env : Env) (d : Database) :
  db_after (createInquiry i) env d
  = match transport env with
    | Online =>
        snd (Postgrest.insert (session env) d (request (createInquiry_query i)))
    | _ => d
    end.
Proof.
  unfold db_after, run, createInquiry, bind, await_write.
  rewrite exchange_state by reflexivity. cbn [fst snd db console].
  destruct (error _) as [e|]; unfold console_error, ret, bind; reflexivity.
Qed.

(** The insert of [saveProperty], as the insert of its one row. *)
Lemma saveProperty_insert (uid : option uuid) (u p : uuid) (d : Database) :
  Postgrest.insert uid d (request (saveProperty_query u p))
  = match insert_saved_row uid d
            {| saved_user_id := u; saved_property_id := p |} with
    | inl e => (failed e, d)
    | inr d' => (no_content, d')
    end.
Proof.
  unfold Postgrest.insert; simpl.
  now destruct (insert_saved_row uid d _).
Qed.

Lemma createInquiry_insert_state (uid : option uuid) (i : Inquiry.t)
    (d : Database) :
  Postgrest.insert uid d (request (createInquiry_query i))
  = match insert_inquiry_row d i with
    | inl e => (failed e, d)
    | inr d' => (no_content, d')
    end.
Proof.
  unfold Postgrest.insert; simpl.
  now destruct (insert_inquiry_row d i).
Qed.

Lemma same_saved_eq (a b : SavedRow) : same_saved a b = true <-> a = b.
Proof.
  unfold same_saved. rewrite andb_true_iff, !String.eqb_eq.
  destruct a, b; simpl. split.
  - now intros [-> ->].
  - intros E. injection E as -> ->. now split.
Qed.

Lemma is_saved_in (d : Database) (u p : uuid) :
  is_saved d u p = true
  <-> In {| saved_user_id := u; saved_property_id := p |} (saved_properties d).
Proof.
  unfold is_saved. rewrite existsb_exists. split.
  - intros (x & Hx & E). apply same_saved_eq in E. now subst.
  - intros H. eexists; split; [exact H|]. now apply same_saved_eq.
Qed.

End Sequencing.

(* ====================================================================== *)
(** ** What the reads return *)
(* ====================================================================== *)

Section Reads.
Import Schema Postgrest Client Js propertiesService Vocabulary Integrity.

(** Every response to the request of [getFeaturedProperties] carries an
    error, and the call answers the empty list. *)
Lemma getFeaturedProperties_empty (env : Env) (d : Database) :
  result getFeaturedProperties env d = Normal []
  /\ exists e,
       awaited_error (await_properties getFeaturedProperties_query) env d = Some e
       /\ (transport env = Online -> e = no_relationship).
Proof.
  destruct (getFeaturedProperties_result env d) as [-> ->].
  unfold answered.
  change (select_properties d (request getFeaturedProperties_query))
    with (@failed (list PropertyRow) no_relationship).
  destruct (transport env); simpl; split; trivial; eexists; split;
    try reflexivity; discriminate.
Qed.

Lemma searchProperties_rows (q : string) (env : Env) (d : Database) :
  literal_query q = true ->
  result (searchProperties q) env d
  = Normal (match transport env with
            | Online =>
                firstn 20 (filter (fun r => active r && mentions q r)%bool
                             (properties d))
            | _ => []
            end).
Proof.
  intros Hq. destruct (searchProperties_result q env d) as [_ ->].
  unfold answered. destruct (transport env); try reflexivity.
  rewrite search_select, (search_filters_valid q Hq). cbn [error data ok].
  unfold selected_properties.
  change (limit_rows (request (searchProperties_query q))) with (Some 20).
  unfold take. do 2 f_equal. apply filter_ext. intros r.
  rewrite (search_filters_hold q r Hq).
  unfold active. now destruct (properties_select_policy r).
Qed.

(** X1. The three reads whose select list embeds [agents(...)] never
    return a property: [properties.agent_id] is declared without a
    foreign key, so on a reachable backend the request is rejected with
    PGRST200, and in every environment, for every database and argument,
    [getProperties] and [getFeaturedProperties] return the empty list and
    [getPropertyById] returns null.  [searchProperties] and
    [getSavedProperties], which embed only related tables, are not
    rejected for their select list. *)
Theorem agents_embedding_rejected (env : Env) (d : Database) :
  related "properties" "agents" = false
  /\ (forall f, result (getProperties f) env d = Normal [])
  /\ result getFeaturedProperties env d = Normal []
  /\ (forall i, result (getPropertyById i) env d = Normal None)
  /\ (transport env = Online ->
      (forall f,
          awaited_error (await_properties (getProperties_query f)) env d
          = Some no_relationship)
      /\ awaited_error (await_properties getFeaturedProperties_query) env d
         = Some no_relationship
      /\ (forall i,
             awaited_error (await_property (getPropertyById_query i)) env d
             = Some no_relationship))
  /\ (forall q, embed_error (request (searchProperties_query q)) = None)
  /\ (forall u, embed_error (request (getSavedProperties_query u)) = None).
Proof.
  split; [reflexivity|].
  split; [intros f; apply getProperties_empty|].
  split; [apply getFeaturedProperties_empty|].
  split; [intros i; apply getPropertyById_null|].
  split; [|split; reflexivity].
  intros Ht. split; [|split].
  - intros f. destruct (getProperties_empty f env d) as (_ & e & -> & He).
    now rewrite (He Ht).
  - destruct (getFeaturedProperties_empty env d) as (_ & e & -> & He).
    now rewrite (He Ht).
  - intros i. destruct (getPropertyById_null i env d) as (_ & e & -> & He).
    now rewrite (He Ht).
Qed.

(** X6. On ASCII text a search does not depend on the letter case of its
    text: over listings whose title, description and city are ASCII, two
    ASCII texts free of [%], [_], [\], [*], [,], [(] and [)] that differ
    only in letter case return the same listings, in every
    environment. *)
Theorem searchProperties_ignores_case (q q' : string) (env : Env)
    (d : Database) :
  literal_query q = true -> literal_query q' = true ->
  Text.ascii_text q = true -> Text.ascii_text q' = true ->
  ascii_listings d ->
  Text.lower q = Text.lower q' ->
  result (searchProperties q) env d = result (searchProperties q') env d.
Proof.
  intros Hq Hq' Ha Ha' Hd E.
  rewrite (searchProperties_rows q env d Hq), (searchProperties_rows q' env d Hq').
  destruct (transport env); try reflexivity.
  do 2 f_equal. apply filter_ext. intros r.
  unfold mentions, Text.includes_ci. now rewrite E.
Qed.

Lemma searchProperties_ignores_case_witness :
  result (searchProperties "AUSTIN") anonymous sample_db
  = result (searchProperties "austin") anonymous sample_db.
Proof.
  apply searchProperties_ignores_case; try reflexivity.
  intros r [<-|[<-|[<-|[]]]]; reflexivity.
Defined.

End Reads.

(* ====================================================================== *)
(** ** What the writes do to the database *)
(* ====================================================================== *)

Section Effects.
Import Schema Postgrest Client Js propertiesService Vocabulary Integrity.

(** The four conditions under which the backend accepts a saved pair. *)
Lemma insert_saved_row_accepts (uid : option uuid) (d : Database) (u p : uuid) :
  uid = Some u -> is_saved d u p = false ->
  user_exists d u = true -> property_exists d p = true ->
  insert_saved_row uid d {| saved_user_id := u; saved_property_id := p |}
  = inr {| properties := properties d;
           saved_properties :=
             saved_properties d
               ++ [{| saved_user_id := u; saved_property_id := p |}];
           inquiries := inquiries d;
           auth_users := auth_users d |}.
Proof.
  intros -> Hs Hu Hp. unfold insert_saved_row, own_saved_row; simpl.
  rewrite String.eqb_refl. unfold is_saved in Hs. rewrite Hs, Hu, Hp.
  reflexivity.
Qed.

Lemma insert_saved_row_refuses (uid : option uuid) (d : Database) (u p : uuid) :
  ~ (uid = Some u /\ is_saved d u p = false
     /\ user_exists d u = true /\ property_exists d p = true) ->
  exists e,
    insert_saved_row uid d {| saved_user_id := u; saved_property_id := p |}
    = inl e
    /\ code e <> "PGRST116"%string.
Proof.
  intros H. unfold insert_saved_row, own_saved_row; simpl.
  destruct uid as [v|]; simpl.
  - destruct (v =? u)%string eqn:E; simpl.
    + apply String.eqb_eq in E. subst v. fold (is_saved d u p).
      destruct (is_saved d u p) eqn:Hs; simpl;
        [eexists; split; [reflexivity|discriminate]|].
      destruct (user_exists d u) eqn:Hu; simpl;
        [|eexists; split; [reflexivity|discriminate]].
      destruct (property_exists d p) eqn:Hp; simpl;
        [|eexists; split; [reflexivity|discriminate]].
      exfalso. apply H. now repeat split.
    + eexists; split; [reflexivity|discriminate].
  - eexists; split; [reflexivity|discriminate].
Qed.

Lemma insert_saved_row_decide (uid : option uuid) (d : Database) (u p : uuid) :
  (uid = Some u /\ is_saved d u p = false
   /\ user_exists d u = true /\ property_exists d p = true)
  \/ ~ (uid = Some u /\ is_saved d u p = false
        /\ user_exists d u = true /\ property_exists d p = true).
Proof.
  destruct uid as [v|]; [|right; intros [H _]; discriminate].
  destruct (String.eqb_spec v u) as [->|Hne];
    [|right; intros [H _]; injection H as ->; contradiction].
  destruct (is_saved d u p); [right; intros (_ & H & _); discriminate|].
  destruct (user_exists d u); [|right; intros (_ & _ & H & _); discriminate].
  destruct (property_exists d p); [|right; intros (_ & _ & _ & H); discriminate].
  left. now repeat split.
Qed.

(** The rows a session may delete among those of the pair. *)
Lemma delete_saved_rows (uid : option uuid) (u p : uuid) (d : Database) :
  snd (delete_saved uid d (request (removeSavedProperty_query u p)))
  = {| properties := properties d;
       saved_properties :=
         filter (fun r => negb (own_saved_row uid r
                                && same_saved
                                     {| saved_user_id := u;
                                        saved_property_id := p |} r))
           (saved_properties d);
       inquiries := inquiries d;
       auth_users := auth_users d |}.
Proof.
  unfold delete_saved.
  change (table (request (removeSavedProperty_query u p)))
    with "saved_properties"%string.
  change (filters_error saved_columns
            (filters (request (removeSavedProperty_query u p))))
    with (@None PostgrestError).
  cbn [negb String.eqb Ascii.eqb Bool.eqb snd].
  f_equal. apply filter_ext. intros r.
  now rewrite removeSavedProperty_filters.
Qed.

Lemma database_eta (d : Database) :
  {| properties := properties d; saved_properties := saved_properties d;
     inquiries := inquiries d; auth_users := auth_users d |} = d.
Proof. now destruct d. Qed.

Lemma filter_app_last {A : Type} (f : A -> bool) (l : list A) (x : A) :
  filter f (l ++ [x]) = filter f l ++ (if f x then [x] else []).
Proof. rewrite filter_app. reflexivity. Qed.

(** Under a primary key, the listing that a saved row names is found. *)
Lemma find_by_id (P : PropertyRow -> bool) (l : list PropertyRow)
    (r : PropertyRow) :
  NoDup (map id l) -> In r l -> P r = true ->
  find (fun x => (id x =? id r)%string && P x)%bool l = Some r.
Proof.
  induction l as [|a l IH]; simpl; intros Hnd Hin HP; [contradiction|].
  inversion Hnd as [|? ? Hnotin Hnd']; subst.
  destruct Hin as [->|Hin].
  - now rewrite String.eqb_refl, HP.
  - assert (E : (id a =? id r)%string = false).
    { apply String.eqb_neq. intros E. apply Hnotin.
      rewrite E. now apply in_map. }
    rewrite E. simpl. now apply IH.
Qed.

(** The saved list of an identity, on a reachable backend. *)
Lemma getSavedProperties_rows (u : uuid) (env : Env) (d : Database) :
  result (getSavedProperties u) env d
  = Normal (match transport env with
            | Online =>
                map (shown d)
                  (filter (fun r => own_saved_row (session env) r
                                    && (saved_user_id r =? u)%string)%bool
                     (saved_properties d))
            | _ => []
            end).
Proof.
  destruct (getSavedProperties_result u env d) as [_ ->].
  unfold answered. destruct (transport env); try reflexivity.
  change (select_saved (session env) d (request (getSavedProperties_query u)))
    with (ok (map (embed_property d)
                (filter (fun r => own_saved_row (session env) r
                                  && (on_column saved_column r "user_id"
                                        (fun x => cell_eq x (VText u)) && true))%bool
                   (saved_properties d)))).
  cbn [error data ok]. rewrite map_map. f_equal. unfold shown.
  f_equal. apply filter_ext. intros r.
  unfold on_column; simpl. now rewrite andb_true_r.
Qed.



(** A session other than that of the identity owns none of its rows. *)
Lemma foreign_rows (u : uuid) (env : Env) (r : SavedRow) :
  session env <> Some u ->
  (own_saved_row (session env) r && (saved_user_id r =? u)%string)%bool = false.
Proof.
  intros Hs. unfold own_saved_row. destruct (session env) as [v|]; [|reflexivity].
  destruct (v =? saved_user_id r)%string eqn:E1; [|reflexivity].
  destruct (saved_user_id r =? u)%string eqn:E2; [|reflexivity].
  apply String.eqb_eq in E1, E2. exfalso. apply Hs. congruence.
Qed.

Lemma foreign_save (u p : uuid) (env : Env) (d : Database) :
  session env <> Some u ->
  db_after (saveProperty u p) env d = d
  /\ (transport env = Online ->
      result (saveProperty u p) env d = Normal false).
Proof.
  intros Hs.
  destruct (insert_saved_row_refuses (session env) d u p) as (e & He & Hc);
    [intros [H _]; contradiction|].
  split.
  - rewrite saveProperty_db_after, saveProperty_insert, He.
    now destruct (transport env).
  - intros Ht. destruct (saveProperty_result u p env d) as [_ ->].
    unfold answered. rewrite Ht, saveProperty_insert, He.
    cbn [fst error failed]. apply String.eqb_neq in Hc. now rewrite Hc.
Qed.

Lemma foreign_remove (u p : uuid) (env : Env) (d : Database) :
  session env <> Some u ->
  db_after (removeSavedProperty u p) env d = d.
Proof.
  intros Hs. rewrite removeSavedProperty_db_after, delete_saved_rows.
  destruct (transport env); try reflexivity.
  rewrite filter_everything; [apply database_eta|].
  intros r _. apply negb_true_iff.
  destruct (own_saved_row (session env) r) eqn:Eo; [|reflexivity].
  pose proof (foreign_rows u env r Hs) as Hown.
  rewrite Eo in Hown. simpl in Hown.
  unfold same_saved; simpl. rewrite String.eqb_sym, Hown. reflexivity.
Qed.

Lemma foreign_list (u : uuid) (env : Env) (d : Database) :
  session env <> Some u ->
  result (getSavedProperties u) env d = Normal [].
Proof.
  intros Hs. rewrite getSavedProperties_rows.
  destruct (transport env); try reflexivity.
  rewrite filter_nothing; [reflexivity|]. intros r _.
  now apply foreign_rows.
Qed.



(** X9. On a reachable backend, for the identity of the session,
    [getSavedProperties] returns one entry per saved pair of that
    identity, in table order; an entry is a listing of the table with the
    identifier of the pair and in active status, or null. *)
Theorem getSavedProperties_own (u : uuid) (env : Env) (d : Database) :
  transport env = Online -> session env = Some u ->
  result (getSavedProperties u) env d = Normal (map (shown d) (saved_of u d))
  /\ forall row x, In row (saved_of u d) -> shown d row = Some x ->
       In x (properties d) /\ id x = saved_property_id row
       /\ status x = Some "active".
Proof.
  intros Ht Hs. split.
  - rewrite getSavedProperties_rows, Ht, Hs. do 2 f_equal.
    unfold saved_of. apply filter_ext. intros r. unfold own_saved_row.
    rewrite (String.eqb_sym u).
    now destruct (saved_user_id r =? u)%string.
  - intros row x _ Hx. unfold shown, embed_property in Hx; simpl in Hx.
    apply find_some in Hx as [Hin Hx].
    apply andb_true_iff in Hx as [Hi Ha].
    apply String.eqb_eq in Hi.
    split; [exact Hin|]. split; [exact Hi|]. now apply active_status.
Qed.

Lemma getSavedProperties_own_witness :
  result (getSavedProperties "u1") (signed_in "u1") busy_db
  = Normal [Some villa; None].
Proof.
  exact (proj1 (getSavedProperties_own "u1" (signed_in "u1") busy_db
                  eq_refl eq_refl)).
Defined.





Lemma property_exists_in (d : Database) (r : PropertyRow) :
  In r (properties d) -> property_exists d (id r) = true.
Proof.
  intros H. unfold property_exists. apply existsb_exists.
  exists r. split; [exact H|apply String.eqb_refl].
Qed.

(** X10. A saved listing shows up in the saved list: on a reachable
    backend, in the session of an existing identity, after saving an
    active listing that was not saved, the saved list holds that listing
    and the entries it held before, and nothing else (in whatever order
    the backend returns them). *)
Theorem save_then_listed (u : uuid) (r : PropertyRow) (env : Env)
    (d : Database) :
  transport env = Online -> session env = Some u ->
  primary_key d -> In r (properties d) -> status r = Some "active" ->
  user_exists d u = true -> is_saved d u (id r) = false ->
  exists before after,
    result (getSavedProperties u) env d = Normal before
    /\ result (saveProperty u (id r) ;; getSavedProperties u) env d
       = Normal after
    /\ Permutation after (Some r :: before).
Proof.
  intros Ht Hs Hpk Hin Ha Hu Hn.
  eexists. eexists. split; [apply getSavedProperties_rows|].
  rewrite result_then by apply getSavedProperties_blind.
  destruct (saveProperty_result u (id r) env d) as [_ ->].
  rewrite saveProperty_db_after, getSavedProperties_rows.
  unfold answered. rewrite Ht, saveProperty_insert.
  rewrite (insert_saved_row_accepts _ _ _ _ Hs Hn Hu (property_exists_in d r Hin)).
  cbn [fst snd error no_content saved_properties].
  split; [reflexivity|].
  rewrite filter_app_last, map_app.
  replace (own_saved_row (session env)
             {| saved_user_id := u; saved_property_id := id r |}
           && (saved_user_id {| saved_user_id := u; saved_property_id := id r |}
               =? u)%string)%bool
    with true
    by (rewrite Hs; unfold own_saved_row; simpl; now rewrite String.eqb_refl).
  cbn [map].
  replace (shown _ {| saved_user_id := u; saved_property_id := id r |})
    with (Some r).
  - apply Permutation_sym.
    match goal with
    | |- Permutation (_ :: ?l) (?l' ++ _) =>
        replace l' with l; [apply Permutation_cons_append|]
    end.
    apply map_ext. intros row. reflexivity.
  - symmetry. unfold shown, embed_property;
      cbn [item_properties properties saved_property_id].
    apply find_by_id; trivial. now apply active_status.
Qed.

Lemma save_then_listed_witness :
  exists after,
    result (saveProperty "u1" "p3" ;; getSavedProperties "u1")
      (signed_in "u1") busy_db = Normal after
    /\ Permutation after [Some cabin; Some villa; None].
Proof.
  assert (Hpk : primary_key busy_db).
  { unfold primary_key; simpl.
    repeat constructor; simpl; intuition discriminate. }
  assert (Hin : In cabin (properties busy_db)) by (simpl; tauto).
  destruct (save_then_listed "u1" cabin (signed_in "u1") busy_db
              eq_refl eq_refl Hpk Hin eq_refl eq_refl eq_refl)
    as (before & after & Hb & Ha & Hperm).
  assert (E : result (getSavedProperties "u1") (signed_in "u1") busy_db
              = Normal [Some villa; None]) by reflexivity.
  rewrite E in Hb. injection Hb as <-.
  exists after. now split.
Defined.

(** What the backend does with the row of an inquiry. *)
Lemma insert_inquiry_row_accepts (d : Database) (i : Inquiry.t) :
  acceptable d i = true ->
  exists n e m,
    Inquiry.name i = Some n /\ Inquiry.email i = Some e
    /\ Inquiry.message i = Some m
    /\ insert_inquiry_row d i
       = inr {| properties := properties d;
                saved_properties := saved_properties d;
                inquiries := inquiries d ++ [inquiry_row i n e m];
                auth_users := auth_users d |}.
Proof.
  unfold acceptable, insert_inquiry_row, inquiry_row; simpl.
  destruct (Inquiry.name i) as [n|]; [|discriminate].
  destruct (Inquiry.email i) as [e|]; [|discriminate].
  destruct (Inquiry.message i) as [m|]; [|discriminate].
  intros H. exists n, e, m. rewrite H. now repeat split.
Qed.

Lemma insert_inquiry_row_refuses (d : Database) (i : Inquiry.t) :
  acceptable d i = false ->
  exists e, insert_inquiry_row d i = inl e.
Proof.
  unfold acceptable, insert_inquiry_row; simpl.
  destruct (Inquiry.name i), (Inquiry.email i), (Inquiry.message i);
    try (intros _; eexists; reflexivity).
  intros ->. eexists; reflexivity.
Qed.



End Effects.

(* ====================================================================== *)
(** ** Invariants, repetition and the console *)
(* ====================================================================== *)

Section Invariants.
Import Schema Postgrest Client Js propertiesService Vocabulary Integrity.

(** The rows that stay after a delete were there before. *)
Lemma references_of_subset (d d' : Database) :
  properties d' = properties d -> auth_users d' = auth_users d ->
  (forall r, In r (saved_properties d') ->
     In r (saved_properties d)
     \/ (user_exists d (saved_user_id r) = true
         /\ property_exists d (saved_property_id r) = true)) ->
  (forall i, In i (inquiries d') ->
     In i (inquiries d)
     \/ forall p, inq_property_id i = Some p -> property_exists d p = true) ->
  references_hold d -> references_hold d'.
Proof.
  intros Hp Hu Hs Hi [Rs Ri]. unfold references_hold, user_exists, property_exists.
  rewrite Hp, Hu. split.
  - intros r Hr. destruct (Hs r Hr) as [H|H]; [now apply Rs|exact H].
  - intros i p Hin Hpi. destruct (Hi i Hin) as [H|H]; [now apply (Ri i)|now apply H].
Qed.

(** X13. The writes of the service keep the integrity of the tables: if
    no pair is saved twice and every saved pair and every inquiry refers
    to rows that exist, the same holds after [saveProperty], after
    [removeSavedProperty] and after [createInquiry], in every
    environment. *)
Theorem writes_keep_integrity (env : Env) (d : Database) :
  unique_saved d -> references_hold d ->
  (forall u p,
      unique_saved (db_after (saveProperty u p) env d)
      /\ references_hold (db_after (saveProperty u p) env d))
  /\ (forall u p,
         unique_saved (db_after (removeSavedProperty u p) env d)
         /\ references_hold (db_after (removeSavedProperty u p) env d))
  /\ (forall i,
         unique_saved (db_after (createInquiry i) env d)
         /\ references_hold (db_after (createInquiry i) env d)).
Proof.
  intros Hu Hr.
  split; [intros u p; split|split; [intros u p; split|intros i; split]].
  - rewrite saveProperty_db_after. destruct (transport env); trivial.
    rewrite saveProperty_insert.
    destruct (insert_saved_row_decide (session env) d u p) as [H|H].
    + destruct H as (Hs & Hn & Hx & Hp).
      rewrite (insert_saved_row_accepts _ _ _ _ Hs Hn Hx Hp). cbn [snd].
      unfold unique_saved; cbn [saved_properties].
      apply NoDup_app; [exact Hu|repeat constructor; intros []|].
      intros a Ha [<-|[]]. apply is_saved_in in Ha. congruence.
    + now destruct (insert_saved_row_refuses _ _ _ _ H) as (e & -> & _).
  - rewrite saveProperty_db_after. destruct (transport env); trivial.
    rewrite saveProperty_insert.
    destruct (insert_saved_row_decide (session env) d u p) as [H|H].
    + destruct H as (Hs & Hn & Hx & Hp).
      rewrite (insert_saved_row_accepts _ _ _ _ Hs Hn Hx Hp). cbn [snd].
      apply (references_of_subset d); trivial; cbn [saved_properties inquiries].
      * intros r Hin. apply in_app_or in Hin as [Hin|[<-|[]]]; [now left|].
        right. now split.
      * intros i Hin. now left.
    + now destruct (insert_saved_row_refuses _ _ _ _ H) as (e & -> & _).
  - rewrite removeSavedProperty_db_after. destruct (transport env); trivial.
    rewrite delete_saved_rows. unfold unique_saved; cbn [saved_properties].
    now apply NoDup_filter.
  - rewrite removeSavedProperty_db_after. destruct (transport env); trivial.
    rewrite delete_saved_rows.
    apply (references_of_subset d); trivial; cbn [saved_properties inquiries].
    + intros r Hin. apply filter_In in Hin as [Hin _]. now left.
    + intros i Hin. now left.
  - rewrite createInquiry_db_after. destruct (transport env); trivial.
    rewrite createInquiry_insert_state.
    destruct (acceptable d i) eqn:Ea.
    + now destruct (insert_inquiry_row_accepts d i Ea)
        as (n & e & m & _ & _ & _ & ->).
    + now destruct (insert_inquiry_row_refuses d i Ea) as (e & ->).
  - rewrite createInquiry_db_after. destruct (transport env); trivial.
    rewrite createInquiry_insert_state.
    destruct (acceptable d i) eqn:Ea.
    + destruct (insert_inquiry_row_accepts d i Ea)
        as (n & e & m & Hn & He & Hm & ->). cbn [snd].
      apply (references_of_subset d); trivial; cbn [saved_properties inquiries].
      * intros r Hin. now left.
      * intros j Hin. apply in_app_or in Hin as [Hin|[<-|[]]]; [now left|].
        right. intros p Hp. unfold inquiry_row in Hp; cbn in Hp.
        unfold acceptable in Ea. rewrite Hn, He, Hm, Hp in Ea. exact Ea.
    + now destruct (insert_inquiry_row_refuses d i Ea) as (e & ->).
Qed.

Lemma writes_keep_integrity_witness :
  unique_saved (db_after (saveProperty "u2" "p1") (signed_in "u2") busy_db)
  /\ references_hold (db_after (saveProperty "u2" "p1") (signed_in "u2") busy_db).
Proof.
  assert (Hu : unique_saved busy_db).
  { unfold unique_saved; simpl.
    repeat constructor; simpl; intuition discriminate. }
  assert (Hr : references_hold busy_db).
  { split.
    - simpl. intros r [<-|[<-|[<-|[]]]]; split; reflexivity.
    - simpl. intros i p []. }
  exact (proj1 (writes_keep_integrity (signed_in "u2") busy_db Hu Hr) "u2" "p1"%string).
Defined.

(** X14. Repeating a write changes nothing more: the database after two
    [saveProperty] calls for a pair is the database after one, and
    likewise for [removeSavedProperty], in every environment. *)
Theorem repeated_write_changes_nothing (u p : uuid) (env : Env)
    (d : Database) :
  db_after (saveProperty u p ;; saveProperty u p) env d
  = db_after (saveProperty u p) env d
  /\ db_after (removeSavedProperty u p ;; removeSavedProperty u p) env d
     = db_after (removeSavedProperty u p) env d.
Proof.
  split.
  - rewrite db_after_then;
      [|apply saveProperty_blind
       |destruct (saveProperty_result u p env d) as [_ ->]; eauto].
    rewrite (saveProperty_db_after u p env (db_after _ _ _)).
    rewrite saveProperty_db_after.
    destruct (transport env); try reflexivity.
    rewrite (saveProperty_insert _ _ _ d).
    destruct (insert_saved_row_decide (session env) d u p) as [H|H].
    + destruct H as (Hs & Hn & Hx & Hp).
      rewrite (insert_saved_row_accepts _ _ _ _ Hs Hn Hx Hp). cbn [snd].
      rewrite saveProperty_insert.
      match goal with
      | |- context [insert_saved_row _ ?d' _] =>
          destruct (insert_saved_row_refuses (session env) d' u p)
            as (e & -> & _); [|reflexivity]
      end.
      intros (_ & Hn' & _).
      apply not_true_iff_false in Hn'. apply Hn'.
      apply is_saved_in. cbn [saved_properties].
      apply in_or_app. right. now left.
    + destruct (insert_saved_row_refuses _ _ _ _ H) as (e & He & _).
      rewrite He. cbn [snd]. now rewrite saveProperty_insert, He.
  - rewrite db_after_then;
      [|apply removeSavedProperty_blind
       |destruct (removeSavedProperty_result u p env d) as [_ ->]; eauto].
    rewrite (removeSavedProperty_db_after u p env (db_after _ _ _)).
    rewrite removeSavedProperty_db_after.
    destruct (transport env); try reflexivity.
    rewrite !delete_saved_rows.
    cbn [properties saved_properties inquiries auth_users].
    f_equal. apply filter_everything.
    intros x Hx. now apply filter_In in Hx.
Qed.

Ltac logged_call :=
  unfold console_after, awaited_error, result, run, bind,
    await_properties, await_property, await_saved, await_write;
  rewrite !exchange_state by
    (try reflexivity; now rewrite getProperties_query_shape);
  cbn [fst snd db console];
  repeat match goal with
         | |- context [match error ?r with _ => _ end] => destruct (error r)
         | |- context [if ?b then _ else _] => destruct b
         end;
  unfold console_error, ret, logged; cbn [fst snd db console app];
  reflexivity.

(** X15. What reaches the console: a call writes one entry, its own
    label with the error of the response, when the response carries an
    error, and nothing otherwise; [saveProperty] writes nothing for an
    error whose code is PGRST116. *)
Theorem errors_are_logged (env : Env) (d : Database) :
  (forall f,
      console_after (getProperties f) env d
      = logged "Error fetching properties:"
          (awaited_error (await_properties (getProperties_query f)) env d))
  /\ (forall i,
         console_after (getPropertyById i) env d
         = logged "Error fetching property:"
             (awaited_error (await_property (getPropertyById_query i)) env d))
  /\ console_after getFeaturedProperties env d
     = logged "Error fetching featured properties:"
         (awaited_error (await_properties getFeaturedProperties_query) env d)
  /\ (forall q,
         console_after (searchProperties q) env d
         = logged "Error searching properties:"
             (awaited_error (await_properties (searchProperties_query q)) env d))
  /\ (forall i,
         console_after (createInquiry i) env d
         = logged "Error creating inquiry:"
             (awaited_error (await_write (createInquiry_query i)) env d))
  /\ (forall u p,
         console_after (saveProperty u p) env d
         = match awaited_error (await_write (saveProperty_query u p)) env d with
           | Some e =>
               if (code e =? "PGRST116")%string then []
               else [("Error saving property:"%string, e)]
           | None => []
           end)
  /\ (forall u p,
         console_after (removeSavedProperty u p) env d
         = logged "Error removing saved property:"
             (awaited_error (await_write (removeSavedProperty_query u p)) env d))
  /\ (forall u,
         console_after (getSavedProperties u) env d
         = logged "Error fetching saved properties:"
             (awaited_error (await_saved (getSavedProperties_query u)) env d)).
Proof.
  repeat split; intros.
  - unfold getProperties. logged_call.
  - unfold getPropertyById. logged_call.
  - unfold getFeaturedProperties. logged_call.
  - unfold searchProperties. logged_call.
  - unfold createInquiry. logged_call.
  - unfold saveProperty, console_after, awaited_error, result, run, bind,
      await_write.
    rewrite !exchange_state by reflexivity. cbn [fst snd db console].
    destruct (error _) as [e|]; [|reflexivity].
    destruct (code e =? "PGRST116")%string; reflexivity.
  - unfold removeSavedProperty. logged_call.
  - unfold getSavedProperties. logged_call.
Qed.

End Invariants.

(* ====================================================================== *)
(** ** The session helpers and the saved list *)
(* ====================================================================== *)

Section Sessions.
Import Schema Postgrest Client Js propertiesService Vocabulary Integrity.
Import supabaseClient.

Lemma isAuthenticated_result (env : Env) (d : Database) :
  result isAuthenticated env d
  = Normal (match session env with Some _ => true | None => false end).
Proof.
  unfold result, run, isAuthenticated, bind, Auth.getSession, ret; simpl.
  now destruct (session env).
Qed.

Lemma getCurrentUser_result (env : Env) (d : Database) :
  result getCurrentUser env d
  = Normal (match session env with
            | Some u => Some {| Auth.id := u |}
            | None => None
            end).
Proof.
  unfold result, run, getCurrentUser, bind, Auth.getSession, ret; simpl.
  now destruct (session env).
Qed.


(** X17. A visitor for whom [isAuthenticated] answers [false] has no
    current user and can neither save nor remove nor list saved
    properties: [getCurrentUser] answers null, [saveProperty] and
    [removeSavedProperty] leave the database as it is for every identity
    and property, [getSavedProperties] returns the empty list, and on a
    reachable backend [saveProperty] answers [false]. *)
Theorem visitor_cannot_save (env : Env) (d : Database) :
  result isAuthenticated env d = Normal false ->
  result getCurrentUser env d = Normal None
  /\ forall u p,
       db_after (saveProperty u p) env d = d
       /\ db_after (removeSavedProperty u p) env d = d
       /\ result (getSavedProperties u) env d = Normal []
       /\ (transport env = Online ->
           result (saveProperty u p) env d = Normal false).
Proof.
  rewrite isAuthenticated_result, getCurrentUser_result.
  destruct (session env) as [v|] eqn:Hs; [discriminate|]. intros _.
  split; [reflexivity|]. intros u p.
  assert (Hn : session env <> Some u) by (rewrite Hs; discriminate).
  destruct (foreign_save u p env d Hn) as [Hdb Hres].
  split; [exact Hdb|].
  split; [now apply foreign_remove|].
  split; [now apply foreign_list|exact Hres].
Qed.

Lemma visitor_cannot_save_witness :
  result getCurrentUser anonymous busy_db = Normal None
  /\ result (getSavedProperties "u1") anonymous busy_db = Normal []
  /\ result (saveProperty "u1" "p3") anonymous busy_db = Normal false.
Proof.
  destruct (visitor_cannot_save anonymous busy_db eq_refl) as [Hu H].
  destruct (H "u1"%string "p3"%string) as (_ & _ & Hl & Hs).
  split; [exact Hu|]. split; [exact Hl|]. now apply Hs.
Defined.



End Sessions.

(* ====================================================================== *)
(** ** Errors and defaults *)
(* ====================================================================== *)

Section Defaults.
Import Schema Postgrest Client Js propertiesService Vocabulary Integrity.

(** The errors the insert of [saveProperty] can meet: the refusals of the
    database (policy, duplicate key, foreign keys), a failed fetch, or an
    answer of the platform; none of them has the code PGRST116 in an
    environment that keeps that code for single-object requests. *)
Lemma saveProperty_error_code (u p : uuid) (env : Env) (d : Database)
    (e : PostgrestError) :
  single_object_code_kept env ->
  awaited_error (await_write (saveProperty_query u p)) env d = Some e ->
  code e <> "PGRST116"%string.
Proof.
  intros Hkept. destruct (saveProperty_result u p env d) as [-> _].
  unfold answered. destruct (transport env) as [|n m|e0] eqn:Ht.
  - rewrite saveProperty_insert.
    destruct (insert_saved_row_decide (session env) d u p) as [H|H].
    + destruct H as (Hs & Hn & Hu & Hp).
      rewrite (insert_saved_row_accepts _ _ _ _ Hs Hn Hu Hp). discriminate.
    + destruct (insert_saved_row_refuses _ _ _ _ H) as (e' & -> & Hc).
      cbn [fst error failed]. intros E. injection E as <-. exact Hc.
  - cbn [error failed]. intros E. injection E as <-. discriminate.
  - cbn [error failed]. intros E. injection E as <-. now apply Hkept.
Qed.

(** C2. No call of the service throws, in any environment.  When the
    awaited response carries an error, the list operations answer the
    empty list, [getPropertyById] answers null, and [createInquiry],
    [saveProperty] and [removeSavedProperty] answer [false]; for
    [saveProperty] the errors are those its insert can receive, the code
    PGRST116 being the answer to single-object reads only. *)
Theorem service_error_defaults (env : Env) (d : Database) :
  ((forall f, exists v, result (getProperties f) env d = Normal v)
   /\ (forall i, exists v, result (getPropertyById i) env d = Normal v)
   /\ (exists v, result getFeaturedProperties env d = Normal v)
   /\ (forall q, exists v, result (searchProperties q) env d = Normal v)
   /\ (forall i, exists v, result (createInquiry i) env d = Normal v)
   /\ (forall u p, exists v, result (saveProperty u p) env d = Normal v)
   /\ (forall u p, exists v, result (removeSavedProperty u p) env d = Normal v)
   /\ (forall u, exists v, result (getSavedProperties u) env d = Normal v))
  /\ forall e : PostgrestError,
      (forall f,
          awaited_error (await_properties (getProperties_query f)) env d = Some e ->
          result (getProperties f) env d = Normal [])
      /\ (forall i,
             awaited_error (await_property (getPropertyById_query i)) env d = Some e ->
             result (getPropertyById i) env d = Normal None)
      /\ (awaited_error (await_properties getFeaturedProperties_query) env d = Some e ->
          result getFeaturedProperties env d = Normal [])
      /\ (forall q,
             awaited_error (await_properties (searchProperties_query q)) env d = Some e ->
             result (searchProperties q) env d = Normal [])
      /\ (forall i,
             awaited_error (await_write (createInquiry_query i)) env d = Some e ->
             result (createInquiry i) env d = Normal false)
      /\ (forall u p,
             single_object_code_kept env ->
             awaited_error (await_write (saveProperty_query u p)) env d = Some e ->
             result (saveProperty u p) env d = Normal false)
      /\ (forall u p,
             awaited_error (await_write (removeSavedProperty_query u p)) env d = Some e ->
             result (removeSavedProperty u p) env d = Normal false)
      /\ (forall u,
             awaited_error (await_saved (getSavedProperties_query u)) env d = Some e ->
             result (getSavedProperties u) env d = Normal []).
Proof.
  split.
  - repeat split; intros.
    + destruct (getProperties_result f env d) as [_ ->]. eauto.
    + destruct (getPropertyById_result i env d) as [_ ->]. eauto.
    + destruct (getFeaturedProperties_result env d) as [_ ->]. eauto.
    + destruct (searchProperties_result q env d) as [_ ->]. eauto.
    + destruct (createInquiry_result i env d) as [_ ->]. eauto.
    + destruct (saveProperty_result u p env d) as [_ ->]. eauto.
    + destruct (removeSavedProperty_result u p env d) as [_ ->]. eauto.
    + destruct (getSavedProperties_result u env d) as [_ ->]. eauto.
  - intros e.
    split; [intros f He|split; [intros i He|split; [intros He|
      split; [intros q He|split; [intros i He|split; [intros u p Hk He|
      split; [intros u p He|intros u He]]]]]]].
    + destruct (getProperties_result f env d) as [E ->].
      rewrite E in He. now rewrite He.
    + destruct (getPropertyById_result i env d) as [E ->].
      rewrite E in He. now rewrite He.
    + destruct (getFeaturedProperties_result env d) as [E ->].
      rewrite E in He. now rewrite He.
    + destruct (searchProperties_result q env d) as [E ->].
      rewrite E in He. now rewrite He.
    + destruct (createInquiry_result i env d) as [E ->].
      rewrite E in He. unfold is_error. now rewrite He.
    + pose proof (saveProperty_error_code u p env d e Hk He) as Hc.
      destruct (saveProperty_result u p env d) as [E ->].
      rewrite E in He. rewrite He.
      apply String.eqb_neq in Hc. now rewrite Hc.
    + destruct (removeSavedProperty_result u p env d) as [E ->].
      rewrite E in He. unfold is_error. now rewrite He.
    + destruct (getSavedProperties_result u env d) as [E ->].
      rewrite E in He. now rewrite He.
Qed.

(** A visitor who is not signed in tries to save: the policy refuses the
    insert and the call answers [false]; the same on a backend that is
    out of reach. *)
Lemma service_error_defaults_witness :
  single_object_code_kept anonymous
  /\ awaited_error (await_write (saveProperty_query "u1" "p1")) anonymous sample_db
     = Some rls_violation
  /\ result (saveProperty "u1" "p1") anonymous sample_db = Normal false
  /\ single_object_code_kept (unreachable rls_violation)
  /\ result (saveProperty "u1" "p1") (unreachable rls_violation) sample_db
     = Normal false.
Proof.
  assert (H1 : single_object_code_kept anonymous)
    by (intros e H; discriminate).
  assert (H2 : single_object_code_kept (unreachable rls_violation))
    by (intros e H; injection H as <-; discriminate).
  split; [exact H1|]. split; [reflexivity|].
  split.
  - apply (proj2 (service_error_defaults anonymous sample_db) rls_violation);
      [exact H1|reflexivity].
  - split; [exact H2|].
    apply (proj2 (service_error_defaults (unreachable rls_violation) sample_db)
             rls_violation); [exact H2|reflexivity].
Defined.

End Defaults.
